(** * fusionsolar-customview: the relay handlers and the dashboard state

    A shallow embedding of [server.js] (the Express relay: the login
    handler and the generic vendor proxy) and of the dashboard component
    ([handleLogout], [calculateTotals]).

    JavaScript values are the values [JSON.parse] produces.  Strings are
    sequences of UTF-16 code units, numbers are IEEE 754 binary64 floats
    (the kernel's primitive floats), objects are lists of own properties in
    insertion order.  [undefined] is the [None] of an [option value].

    A handler is modelled from the point where Express calls it, with
    [req.body] as [express.json()] left it, up to the status and the value it
    hands to [res.status(...).json(...)].  The vendor is a function from the
    [fetch] call to its result.  Of the console output only the
    [console.warn] lines are kept. *)

From Stdlib Require Import List String Ascii NArith ZArith Bool Lia.
From Stdlib Require Import PrimFloat Uint63.
Import ListNotations.

Set Implicit Arguments.

(** ** JavaScript values *)

Module JS.

Definition code_unit := N.
Definition jsstring := list code_unit.

(** A string literal of the source, as code units. *)
Definition js (s : string) : jsstring :=
  map N_of_ascii (list_ascii_of_string s).

(** [===] on strings. *)
Fixpoint str_eqb (a b : jsstring) : bool :=
  match a, b with
  | [], [] => true
  | x :: a', y :: b' => N.eqb x y && str_eqb a' b'
  | _, _ => false
  end.

(** Decimal digits of a natural number, as [Number.prototype.toString]
    prints an integer below 2^53 (status codes, array indices). *)
Fixpoint digits (u : Decimal.uint) : jsstring :=
  match u with
  | Decimal.Nil => []
  | Decimal.D0 u => 48%N :: digits u
  | Decimal.D1 u => 49%N :: digits u
  | Decimal.D2 u => 50%N :: digits u
  | Decimal.D3 u => 51%N :: digits u
  | Decimal.D4 u => 52%N :: digits u
  | Decimal.D5 u => 53%N :: digits u
  | Decimal.D6 u => 54%N :: digits u
  | Decimal.D7 u => 55%N :: digits u
  | Decimal.D8 u => 56%N :: digits u
  | Decimal.D9 u => 57%N :: digits u
  end.

Definition decimal (n : N) : jsstring := digits (N.to_uint n).

#[local] Unset Elimination Schemes.
Inductive value : Type :=
| VNull
| VBool (b : bool)
| VNum (x : float)
| VStr (s : jsstring)
| VArr (items : list value)
| VObj (fields : list (jsstring * value)).
#[local] Set Elimination Schemes.

(** An object of the program is a [VObj] whose property names are pairwise
    distinct; the functions below read the first binding of a name and
    remove every binding of a name, so they agree with JavaScript on such
    objects and need no side condition. *)

Definition is_nan (x : float) : bool := negb (PrimFloat.eqb x x).

(** ToBoolean. *)
Definition truthy (v : value) : bool :=
  match v with
  | VNull => false
  | VBool b => b
  | VNum x => negb (PrimFloat.eqb x 0%float) && negb (is_nan x)
  | VStr s => match s with [] => false | _ => true end
  | VArr _ | VObj _ => true
  end.

(** ToBoolean of a value that may be [undefined]. *)
Definition truthy_opt (o : option value) : bool :=
  match o with
  | Some v => truthy v
  | None => false
  end.

(** ToBoolean of the result of [Headers.get]: a string or [null]. *)
Definition truthy_str (o : option jsstring) : bool :=
  match o with
  | Some (_ :: _) => true
  | _ => false
  end.

(** [a || b] on such results. *)
Definition or_else (a b : option jsstring) : option jsstring :=
  if truthy_str a then a else b.

Fixpoint lookup (k : jsstring) (fields : list (jsstring * value)) : option value :=
  match fields with
  | [] => None
  | (k', v) :: rest => if str_eqb k k' then Some v else lookup k rest
  end.

(** What the rest pattern [{ k, ...rest }] keeps. *)
Definition without (k : jsstring) (fields : list (jsstring * value))
  : list (jsstring * value) :=
  filter (fun kv => negb (str_eqb k (fst kv))) fields.

(** [o.k = v] on an object: an existing property keeps its place. *)
Fixpoint assign (k : jsstring) (v : value) (fields : list (jsstring * value))
  : list (jsstring * value) :=
  match fields with
  | [] => [(k, v)]
  | (k', v') :: rest =>
      if str_eqb k k' then (k', v) :: rest else (k', v') :: assign k v rest
  end.

Definition index_key (i : nat) : jsstring := decimal (N.of_nat i).

Definition indexed (A : Type) (f : A -> value) (l : list A)
  : list (jsstring * value) :=
  combine (map index_key (seq 0 (List.length l))) (map f l).

Definition float_of_nat (n : nat) : float :=
  PrimFloat.of_uint63 (Uint63.of_Z (Z.of_nat n)).

(** The own enumerable string-keyed properties of a value ([None]: the
    value is [null] and has none to read). *)
Definition own_props (v : value) : option (list (jsstring * value)) :=
  match v with
  | VNull => None
  | VBool _ | VNum _ => Some []
  | VStr s => Some (indexed (fun c => VStr [c]) s)
  | VArr items => Some (indexed (fun x => x) items)
  | VObj fields => Some fields
  end.

(** The own [length] of strings and arrays (not enumerable). *)
Definition own_length (v : value) : option value :=
  match v with
  | VStr s => Some (VNum (float_of_nat (List.length s)))
  | VArr items => Some (VNum (float_of_nat (List.length items)))
  | _ => None
  end.

(** [v.k] where [v] is not [null]: the own data property, [undefined]
    otherwise.  The names this program reads (userName, systemCode,
    xsrfToken, stationCodes, success, failCode, dataItemMap, day_power, ...)
    are not defined on any built-in prototype. *)
Definition prop (v : value) (k : jsstring) : option value :=
  match own_props v with
  | None => None
  | Some fields =>
      match lookup k fields with
      | Some x => Some x
      | None => if str_eqb k (js "length") then own_length v else None
      end
  end.

(** ** Exceptions *)

Inductive exn : Type :=
| NullRead (name : jsstring)      (* TypeError: property [name] read from null *)
| NotCallable (name : jsstring)   (* TypeError: [x.name] is not a function *)
| Rejected (message : jsstring)   (* a rejected promise of fetch / response.json *)
| Unconvertible                   (* TypeError: an object has no primitive value *)
| BadStatus (code : N).           (* RangeError: a status code outside 100..999 *)

Inductive outcome (A : Type) : Type :=
| Done (a : A)
| Throw (e : exn).
Arguments Done {A} a.
Arguments Throw {A} e.

(** One step after another, the first throw ending the run. *)
Definition and_then (A B : Type) (o : outcome A) (k : A -> outcome B) : outcome B :=
  match o with
  | Done a => k a
  | Throw e => Throw e
  end.

(** [v.k], which throws on [null]; also the destructuring [{ k } = v]. *)
Definition get (v : value) (k : jsstring) : outcome (option value) :=
  match v with
  | VNull => Throw (NullRead k)
  | _ => Done (prop v k)
  end.

(** [{ k, ...rest } = v]: the properties [rest] receives. *)
Definition rest_without (k : jsstring) (v : value)
  : outcome (list (jsstring * value)) :=
  match own_props v with
  | None => Throw (NullRead k)
  | Some fields => Done (without k fields)
  end.

(** [v.k = x] in sloppy mode, as it shows in [JSON.stringify v], for a name
    [k] that is no array index: an object gains or updates the property; on
    an array the property is set but not serialised; on a primitive the
    assignment is dropped. *)
Definition set_named (v : value) (k : jsstring) (x : value) : outcome value :=
  match v with
  | VNull => Throw (NullRead k)
  | VObj fields => Done (VObj (assign k x fields))
  | _ => Done v
  end.

(** WhiteSpace and LineTerminator code units, which [trim] strips. *)
Definition is_white_space (c : code_unit) : bool :=
  match c with
  | 9 | 10 | 11 | 12 | 13 | 32 | 160 | 5760
  | 8192 | 8193 | 8194 | 8195 | 8196 | 8197 | 8198 | 8199 | 8200 | 8201 | 8202
  | 8232 | 8233 | 8239 | 8287 | 12288 | 65279 => true
  | _ => false
  end%N.

Fixpoint trim_start (s : jsstring) : jsstring :=
  match s with
  | c :: s' => if is_white_space c then trim_start s' else s
  | [] => []
  end.

(** [String.prototype.trim]. *)
Definition trim (s : jsstring) : jsstring :=
  rev (trim_start (rev (trim_start s))).

(** [v.trim()]: strings have the method, other values do not. *)
Definition call_trim (o : option value) : outcome jsstring :=
  match o with
  | Some (VStr s) => Done (trim s)
  | Some VNull | None => Throw (NullRead (js "trim"))
  | Some _ => Throw (NotCallable (js "trim"))
  end.

(** [JSON.stringify], read back by the receiver: what a value is once it
    has travelled as JSON text.  A number that is not finite is written
    [null] and a zero of either sign is written 0; strings, booleans, [null]
    and the shape and order of arrays and objects are kept. *)
Fixpoint wire (v : value) : value :=
  match v with
  | VNum x =>
      if PrimFloat.is_finite x
      then VNum (if PrimFloat.eqb x 0 then 0%float else x)
      else VNull
  | VArr items => VArr (map wire items)
  | VObj fields => VObj (map (fun kv => (fst kv, wire (snd kv))) fields)
  | _ => v
  end.



(** A JSON object literal of the source handed to [JSON.stringify]: a
    property whose value is [undefined] is left out. *)
Fixpoint stringified (fields : list (jsstring * option value))
  : list (jsstring * value) :=
  match fields with
  | [] => []
  | (k, Some v) :: rest => (k, v) :: stringified rest
  | (_, None) :: rest => stringified rest
  end.

End JS.

(** ** The relay: [server.js] *)

Module Server.
Import JS.

(** The argument of a [fetch] call.  [req_body] is the value handed to
    [JSON.stringify]; a header value is the value of the source expression,
    which node-fetch turns into a string. *)
Record fetch_request : Type := {
  url : jsstring;
  method : jsstring;
  req_headers : list (jsstring * value);
  req_body : value
}.

(** What awaiting [response.json()] gives. *)
Inductive parsed : Type :=
| Malformed (message : jsstring)
| Json (v : value).

(** The node-fetch [Response]: [headers_get] is [response.headers.get]. *)
Record upstream_response : Type := {
  status : N;
  statusText : jsstring;
  headers_get : jsstring -> option jsstring;
  json : parsed
}.

(** What awaiting [fetch(...)] gives. *)
Inductive fetch_result : Type :=
| Failed (message : jsstring)
| Responded (r : upstream_response).

(** A [Headers] object built from the header lines of a response, as
    node-fetch reads it: names compare without regard to ASCII case and the
    values of repeated lines are joined by a comma and a space. *)
Definition lower (c : code_unit) : code_unit :=
  if (65 <=? c)%N && (c <=? 90)%N then (c + 32)%N else c.

Definition same_name (a b : jsstring) : bool :=
  str_eqb (map lower a) (map lower b).

Definition headers_of (lines : list (jsstring * jsstring)) (name : jsstring)
  : option jsstring :=
  match filter (fun l => same_name name (fst l)) lines with
  | [] => None
  | l :: rest => Some (snd l ++ List.concat (map (fun q => js ", " ++ snd q) rest))
  end.

(** [response.ok]. *)
Definition ok (r : upstream_response) : bool :=
  (200 <=? status r)%N && (status r <? 300)%N.

(** What the handler hands to Express: [res.status(code).json(payload)];
    [res.json(payload)] alone leaves the status at 200. *)
Record reply : Type := {
  code : N;
  payload : value
}.

(** The effects of a handler: the [fetch] calls it issued and the
    [console.warn] lines it wrote, oldest first. *)
Record world : Type := {
  requests : list fetch_request;
  warnings : list jsstring
}.

Definition quiet : world := {| requests := []; warnings := [] |}.

(** The effects once one more [fetch] call is issued. *)
Definition sent (w : world) (rq : fetch_request) : world :=
  {| requests := requests w ++ [rq]; warnings := warnings w |}.

Definition M (A : Type) : Type := world -> outcome A * world.

Definition ret (A : Type) (a : A) : M A := fun w => (Done a, w).

Definition throw (A : Type) (e : exn) : M A := fun w => (Throw e, w).
Arguments throw {A} e.

Definition bind (A B : Type) (c : M A) (k : A -> M B) : M B :=
  fun w =>
    match c w with
    | (Done a, w') => k a w'
    | (Throw e, w') => (Throw e, w')
    end.

Definition lift (A : Type) (o : outcome A) : M A := fun w => (o, w).

Definition console_warn (line : jsstring) : M unit :=
  fun w => (Done tt, {| requests := requests w; warnings := warnings w ++ [line] |}).

Declare Scope relay_scope.
Delimit Scope relay_scope with relay.
Notation "x <- c ;; k" := (bind c (fun x => k))
  (at level 61, c at next level, right associativity) : relay_scope.
Notation "c ;;; k" := (bind c (fun _ => k))
  (at level 61, right associativity) : relay_scope.

Section Runtime.

(** The vendor, as seen through node-fetch. *)
Variable fetch : fetch_request -> fetch_result.

(** [error.message] of a TypeError, the engine's wording. *)
Variable type_error_message : exn -> jsstring.

Definition message (e : exn) : jsstring :=
  match e with
  | Rejected m => m
  | _ => type_error_message e
  end.

(** [await fetch(url, init)]. *)
Definition do_fetch (rq : fetch_request) : M upstream_response :=
  fun w =>
    match fetch rq with
    | Failed m => (Throw (Rejected m), sent w rq)
    | Responded r => (Done r, sent w rq)
    end.

(** [await response.json()]. *)
Definition response_json (r : upstream_response) : M value :=
  match json r with
  | Malformed m => throw (Rejected m)
  | Json v => ret v
  end.

Definition failure (error : jsstring) : value :=
  VObj [(js "success", VBool false); (js "error", VStr error)].

Definition failure_details (error details : jsstring) : value :=
  VObj [(js "success", VBool false); (js "error", VStr error);
        (js "details", VStr details)].

(** [try { ... } catch (error) { res.status(500).json(...) }]. *)
Definition try_catch (body : M reply) (error : jsstring) : world -> reply * world :=
  fun w =>
    match body w with
    | (Done r, w') => (r, w')
    | (Throw e, w') =>
        ({| code := 500; payload := failure_details error (message e) |}, w')
    end.

Local Open Scope relay_scope.

(** *** POST /api/huawei/login *)

Definition login_url : jsstring :=
  js "https://intl.fusionsolar.huawei.com/thirdData/login".

Definition login_request (userName systemCode : option value) : fetch_request :=
  {| url := login_url;
     method := js "POST";
     req_headers := [(js "Content-Type", VStr (js "application/json"));
                     (js "User-Agent", VStr (js "Solar-Monitor-App/1.0"))];
     req_body := VObj (stringified [(js "userName", userName);
                                    (js "systemCode", systemCode)]) |}.

(** The three header reads of the login handler, joined by [||]. *)
Definition extract_token (r : upstream_response) : option jsstring :=
  or_else (or_else (headers_get r (js "xsrf-token"))
                   (headers_get r (js "XSRF-TOKEN")))
          (headers_get r (js "X-XSRF-TOKEN")).

Definition login_body (body : value) : M reply :=
  userName <- lift (get body (js "userName")) ;;
  systemCode <- lift (get body (js "systemCode")) ;;
  if negb (truthy_opt userName) || negb (truthy_opt systemCode) then
    ret {| code := 400;
           payload := failure (js "Username and system code are required") |}
  else
    response <- do_fetch (login_request userName systemCode) ;;
    if negb (ok response) then
      ret {| code := status response;
             payload := failure (js "Login API error: " ++ decimal (status response)
                                 ++ js " " ++ statusText response) |}
    else
      data <- response_json response ;;
      _ <- lift (get data (js "success")) ;;
      let xsrfToken := extract_token response in
      data' <- match xsrfToken with
               | Some (c :: t) => lift (set_named data (js "xsrfToken") (VStr (c :: t)))
               | _ => console_warn (js "No XSRF token found in response headers") ;;;
                      ret data
               end ;;
      ret {| code := 200; payload := data' |}.

Definition login (body : value) : reply * world :=
  try_catch (login_body body) (js "Login proxy server error") quiet.

(** *** POST /api/huawei/:endpoint *)

Definition proxy_request (endpoint : jsstring) (xsrfToken : value)
  (body : list (jsstring * value)) : fetch_request :=
  {| url := js "https://intl.fusionsolar.huawei.com/thirdData/" ++ endpoint;
     method := js "POST";
     req_headers := [(js "Content-Type", VStr (js "application/json"));
                     (js "XSRF-TOKEN", xsrfToken);
                     (js "User-Agent", VStr (js "Solar-Monitor-App/1.0"))];
     req_body := VObj body |}.

(** [x === n] for a numeric literal [n]. *)
Definition is_number (o : option value) (n : float) : bool :=
  match o with
  | Some (VNum x) => PrimFloat.eqb x n
  | _ => false
  end.

(** From [const apiUrl = ...] to [res.json(data)]. *)
Definition forward (endpoint : jsstring) (xsrfToken : value)
  (body : list (jsstring * value)) : M reply :=
  response <- do_fetch (proxy_request endpoint xsrfToken body) ;;
  if negb (ok response) then
    ret {| code := status response;
           payload := failure (js "API error: " ++ decimal (status response)
                               ++ js " " ++ statusText response) |}
  else
    data <- response_json response ;;
    success <- lift (get data (js "success")) ;;
    (if negb (truthy_opt success) then
       failCode <- lift (get data (js "failCode")) ;;
       if is_number failCode 407 then
         console_warn (js "Rate limit hit - ACCESS_FREQUENCY_IS_TOO_HIGH")
       else if is_number failCode 20010 then
         console_warn (js "Invalid station codes provided")
       else ret tt
     else ret tt) ;;;
    ret {| code := 200; payload := data |}.

Definition proxy_body (endpoint : jsstring) (req_body : value) : M reply :=
  xsrfToken <- lift (get req_body (js "xsrfToken")) ;;
  body <- lift (rest_without (js "xsrfToken") req_body) ;;
  match xsrfToken with
  | Some token =>
      if negb (truthy token) then
        ret {| code := 400; payload := failure (js "XSRF token is required") |}
      else if str_eqb endpoint (js "getStationRealKpi") then
        let stationCodes := lookup (js "stationCodes") body in
        missing <- (if negb (truthy_opt stationCodes) then ret true
                    else trimmed <- lift (call_trim stationCodes) ;;
                         ret (str_eqb trimmed [])) ;;
        if missing : bool then
          ret {| code := 400;
                 payload := failure
                   (js "stationCodes parameter is required and cannot be empty") |}
        else forward endpoint token body
      else forward endpoint token body
  | None =>
      ret {| code := 400; payload := failure (js "XSRF token is required") |}
  end.

Definition proxy (endpoint : jsstring) (req_body : value) : reply * world :=
  try_catch (proxy_body endpoint req_body) (js "Proxy server error") quiet.

End Runtime.

(** *** What Express puts on the wire *)

(** The response the caller receives: its status and, when a body is
    sent, the JSON value the body's text denotes. *)
Record response : Type := {
  sent_status : N;
  sent_body : option value
}.

(** Statuses that go without a body: Node sends none for 1xx, 204 and 304,
    and [res.send] clears it for 204, 205 and 304. *)
Definition bodiless (code : N) : bool :=
  ((100 <=? code)%N && (code <=? 199)%N)
  || (code =? 204)%N || (code =? 205)%N || (code =? 304)%N.

(** [res.status(code).json(payload)] carried out: a status outside
    100..999 is refused with a RangeError, thrown into the handler. *)
Definition res_json (r : reply) : outcome response :=
  if (code r <? 100)%N || (999 <? code r)%N then Throw (BadStatus (code r))
  else Done {| sent_status := code r;
               sent_body := if bodiless (code r) then None
                            else Some (wire (payload r)) |}.

(** The response of a handler whose last call is
    [res.status(code).json(payload)] inside its [try]: when that call
    throws, the [catch] block answers 500 with the route's error text. *)
Definition answered (type_error_message : exn -> jsstring) (error : jsstring)
  (r : reply) : response :=
  match res_json r with
  | Done a => a
  | Throw e =>
      {| sent_status := 500;
         sent_body :=
           Some (wire (failure_details error (message type_error_message e))) |}
  end.

(** The two routes as the caller sees them. *)
Definition relay_login (fetch : fetch_request -> fetch_result)
  (type_error_message : exn -> jsstring) (body : value) : response * world :=
  (answered type_error_message (js "Login proxy server error")
     (fst (login fetch type_error_message body)),
   snd (login fetch type_error_message body)).

Definition relay_proxy (fetch : fetch_request -> fetch_result)
  (type_error_message : exn -> jsstring) (endpoint : jsstring) (body : value)
  : response * world :=
  (answered type_error_message (js "Proxy server error")
     (fst (proxy fetch type_error_message endpoint body)),
   snd (proxy fetch type_error_message endpoint body)).


End Server.

(** ** The dashboard component *)

Module Dashboard.
Import JS.

Record login_form : Type := {
  userName : jsstring;
  systemCode : jsstring
}.

Record plant_entry : Type := {
  plant_code : option value;
  plant_name : option value;
  capacity : jsstring
}.

(** The [useState] cells of [HuaweiSolarApp]. *)
Record state : Type := {
  isAuthenticated : bool;
  xsrfToken : value;
  availablePlants : list plant_entry;
  selectedPlants : list (option value);
  realTimeData : value;
  loading : bool;
  lastUpdate : N;
  loginError : value;
  showPassword : bool;
  credentials : login_form
}.

(** The state of the first render ([now]: the clock at that time). *)
Definition initial (now : N) : state :=
  {| isAuthenticated := false;
     xsrfToken := VStr [];
     availablePlants := [];
     selectedPlants := [];
     realTimeData := VArr [];
     loading := false;
     lastUpdate := now;
     loginError := VStr [];
     showPassword := false;
     credentials := {| userName := []; systemCode := [] |} |}.

Definition setIsAuthenticated (b : bool) (s : state) : state :=
  {| isAuthenticated := b; xsrfToken := xsrfToken s;
     availablePlants := availablePlants s; selectedPlants := selectedPlants s;
     realTimeData := realTimeData s; loading := loading s;
     lastUpdate := lastUpdate s; loginError := loginError s;
     showPassword := showPassword s; credentials := credentials s |}.

Definition setXsrfToken (t : value) (s : state) : state :=
  {| isAuthenticated := isAuthenticated s; xsrfToken := t;
     availablePlants := availablePlants s; selectedPlants := selectedPlants s;
     realTimeData := realTimeData s; loading := loading s;
     lastUpdate := lastUpdate s; loginError := loginError s;
     showPassword := showPassword s; credentials := credentials s |}.

Definition setAvailablePlants (l : list plant_entry) (s : state) : state :=
  {| isAuthenticated := isAuthenticated s; xsrfToken := xsrfToken s;
     availablePlants := l; selectedPlants := selectedPlants s;
     realTimeData := realTimeData s; loading := loading s;
     lastUpdate := lastUpdate s; loginError := loginError s;
     showPassword := showPassword s; credentials := credentials s |}.

Definition setSelectedPlants (l : list (option value)) (s : state) : state :=
  {| isAuthenticated := isAuthenticated s; xsrfToken := xsrfToken s;
     availablePlants := availablePlants s; selectedPlants := l;
     realTimeData := realTimeData s; loading := loading s;
     lastUpdate := lastUpdate s; loginError := loginError s;
     showPassword := showPassword s; credentials := credentials s |}.

Definition setRealTimeData (d : value) (s : state) : state :=
  {| isAuthenticated := isAuthenticated s; xsrfToken := xsrfToken s;
     availablePlants := availablePlants s; selectedPlants := selectedPlants s;
     realTimeData := d; loading := loading s;
     lastUpdate := lastUpdate s; loginError := loginError s;
     showPassword := showPassword s; credentials := credentials s |}.

Definition setCredentials (c : login_form) (s : state) : state :=
  {| isAuthenticated := isAuthenticated s; xsrfToken := xsrfToken s;
     availablePlants := availablePlants s; selectedPlants := selectedPlants s;
     realTimeData := realTimeData s; loading := loading s;
     lastUpdate := lastUpdate s; loginError := loginError s;
     showPassword := showPassword s; credentials := c |}.

Definition setLoginError (e : value) (s : state) : state :=
  {| isAuthenticated := isAuthenticated s; xsrfToken := xsrfToken s;
     availablePlants := availablePlants s; selectedPlants := selectedPlants s;
     realTimeData := realTimeData s; loading := loading s;
     lastUpdate := lastUpdate s; loginError := e;
     showPassword := showPassword s; credentials := credentials s |}.

(** The state updates [handleLogout] queues, applied in order. *)
Definition handleLogout (s : state) : state :=
  let s := setIsAuthenticated false s in
  let s := setXsrfToken (VStr []) s in
  let s := setAvailablePlants [] s in
  let s := setSelectedPlants [] s in
  let s := setRealTimeData (VArr []) s in
  let s := setCredentials {| userName := []; systemCode := [] |} s in
  setLoginError (VStr []) s.

(** *** calculateTotals *)

Record totals : Type := {
  totalDayPower : float;
  totalRevenue : float;
  totalMonthPower : float;
  totalLifetimePower : float;
  totalOnGridEnergy : float
}.

Definition no_totals : totals :=
  {| totalDayPower := 0; totalRevenue := 0; totalMonthPower := 0;
     totalLifetimePower := 0; totalOnGridEnergy := 0 |}.

(** [Array.prototype.reduce] with a callback that may throw. *)
Fixpoint reduce (A : Type) (f : A -> value -> outcome A) (items : list value)
  (acc : A) : outcome A :=
  match items with
  | [] => Done acc
  | x :: rest =>
      match f acc x with
      | Done acc' => reduce f rest acc'
      | Throw e => Throw e
      end
  end.

(** [o || {}] and [o || 0]. *)
Definition or_empty (o : option value) : value :=
  match o with
  | Some v => if truthy v then v else VObj []
  | None => VObj []
  end.

Definition or_zero (o : option value) : value :=
  match o with
  | Some v => if truthy v then v else VNum 0
  | None => VNum 0
  end.

Definition join_comma (parts : list jsstring) : jsstring :=
  match parts with
  | [] => []
  | p :: rest => p ++ List.concat (map (fun q => 44%N :: q) rest)
  end.

Section Builtins.

(** The built-ins of the language that format and read decimal numbers:
    Number::toString and [parseFloat] on a string argument. *)
Variable NumberToString : float -> jsstring.
Variable parseFloatString : jsstring -> float.

(** ToString.  An object is converted through its [toString]: one that
    has an own property of that name, which as parsed JSON is no function,
    has no primitive value (Object.prototype.valueOf gives the object back)
    and the conversion throws a TypeError.  An array joins its elements, an
    element [null] counting as the empty string. *)
Fixpoint ToString (v : value) : outcome jsstring :=
  match v with
  | VNull => Done (js "null")
  | VBool true => Done (js "true")
  | VBool false => Done (js "false")
  | VNum x => Done (NumberToString x)
  | VStr s => Done s
  | VArr items =>
      match (fix parts (l : list value) : outcome (list jsstring) :=
               match l with
               | [] => Done []
               | e :: l' =>
                   match (match e with
                          | VNull => Done []
                          | _ => ToString e
                          end) with
                   | Throw x => Throw x
                   | Done p =>
                       match parts l' with
                       | Throw x => Throw x
                       | Done ps => Done (p :: ps)
                       end
                   end
               end) items with
      | Done ps => Done (join_comma ps)
      | Throw x => Throw x
      end
  | VObj fields =>
      match lookup (js "toString") fields with
      | Some _ => Throw Unconvertible
      | None => Done (js "[object Object]")
      end
  end.

(** [parseFloat v]: ToString, then the longest decimal prefix.  On a number
    the two steps give the number back (Number::toString prints digits that
    read back as the same float, and prints both zeros as 0). *)
Definition parseFloat (v : value) : outcome float :=
  match v with
  | VNum x => Done (if PrimFloat.eqb x 0 then 0%float else x)
  | _ => and_then (ToString v) (fun s => Done (parseFloatString s))
  end.

(** The callback of the [reduce] in [calculateTotals]: the five fields are
    read in the order of the object literal. *)
Definition add_plant (t : totals) (plant : value) : outcome totals :=
  match get plant (js "dataItemMap") with
  | Throw e => Throw e
  | Done d =>
      let data := or_empty d in
      and_then (parseFloat (or_zero (prop data (js "day_power")))) (fun day_power =>
      and_then (parseFloat (or_zero (prop data (js "day_income")))) (fun day_income =>
      and_then (parseFloat (or_zero (prop data (js "month_power")))) (fun month_power =>
      and_then (parseFloat (or_zero (prop data (js "total_power")))) (fun total_power =>
      and_then (parseFloat (or_zero (prop data (js "day_on_grid_energy"))))
        (fun day_on_grid_energy =>
      Done {| totalDayPower := (totalDayPower t + day_power)%float;
              totalRevenue := (totalRevenue t + day_income)%float;
              totalMonthPower := (totalMonthPower t + month_power)%float;
              totalLifetimePower := (totalLifetimePower t + total_power)%float;
              totalOnGridEnergy :=
                (totalOnGridEnergy t + day_on_grid_energy)%float |})))))
  end.

Definition calculateTotals (s : state) : outcome totals :=
  match realTimeData s with
  | VArr items => reduce add_plant items no_totals
  | VNull => Throw (NullRead (js "reduce"))
  | _ => Throw (NotCallable (js "reduce"))
  end.

End Builtins.

(** *** What the aggregation claim speaks of *)

(** The reading [plant.dataItemMap.k] of a snapshot, [None] when the map or
    the field is missing. *)
Definition reading (k : jsstring) (plant : value) : option value :=
  match prop plant (js "dataItemMap") with
  | Some d => prop d k
  | None => None
  end.

(** What a reading counts for in a total: [parseFloat] of it, and 0 when
    it is missing or falsy. *)
Definition amount (NumberToString : float -> jsstring)
  (parseFloatString : jsstring -> float) (k : jsstring) (plant : value)
  : outcome float :=
  match reading k plant with
  | Some v =>
      if truthy v then parseFloat NumberToString parseFloatString v
      else Done 0%float
  | None => Done 0%float
  end.

(** The amounts of a list of snapshots, in order. *)
Fixpoint amounts (NumberToString : float -> jsstring)
  (parseFloatString : jsstring -> float) (k : jsstring) (plants : list value)
  : outcome (list float) :=
  match plants with
  | [] => Done []
  | plant :: rest =>
      and_then (amount NumberToString parseFloatString k plant) (fun x =>
      and_then (amounts NumberToString parseFloatString k rest) (fun xs =>
      Done (x :: xs)))
  end.

(** The sum of floats, left to right from 0. *)
Definition sum (xs : list float) : float := fold_left PrimFloat.add xs 0%float.

(** The fields [calculateTotals] sums. *)
Definition summed_fields : list jsstring :=
  [js "day_power"; js "day_income"; js "month_power"; js "total_power";
   js "day_on_grid_energy"].

(** A snapshot that can be added: it is not [null] and each summed field
    has an amount. *)
Definition addable (NumberToString : float -> jsstring)
  (parseFloatString : jsstring -> float) (plant : value) : bool :=
  match plant with
  | VNull => false
  | _ =>
      forallb (fun k => match amount NumberToString parseFloatString k plant with
                        | Done _ => true
                        | Throw _ => false
                        end) summed_fields
  end.

End Dashboard.

(** ** The vocabulary of the interface description *)

Module Described.
Import JS Server.

(** A field that is absent, null or otherwise falsy, empty, or made of
    whitespace only. *)
Definition blank (o : option value) : bool :=
  match o with
  | None => true
  | Some (VStr s) => forallb is_white_space s
  | Some v => negb (truthy v)
  end.

(** A string with something else than whitespace in it. *)
Definition usable (o : option value) : bool :=
  match o with
  | Some (VStr s) => negb (forallb is_white_space s)
  | _ => false
  end.

(** A login request that passes the local validation. *)
Definition login_validated (body : value) : bool :=
  truthy_opt (prop body (js "userName")) && truthy_opt (prop body (js "systemCode")).

(** A generic request that passes the local validation. *)
Definition validated (endpoint : jsstring) (body : value) : bool :=
  truthy_opt (prop body (js "xsrfToken"))
  && (negb (str_eqb endpoint (js "getStationRealKpi"))
      || usable (prop body (js "stationCodes"))).

(** A request body as [express.json()] hands it to a handler: an object or
    an array. *)
Definition parsed_body (v : value) : bool :=
  match v with
  | VObj _ | VArr _ => true
  | _ => false
  end.

(** The rest of a request body: every field but the token. *)
Definition forwarded_fields (body : value) : list (jsstring * value) :=
  match own_props body with
  | Some fields => without (js "xsrfToken") fields
  | None => []
  end.

(** The request a validated generic call sends to the vendor. *)
Definition forwarded (endpoint : jsstring) (body : value) : fetch_request :=
  proxy_request endpoint
    (match prop body (js "xsrfToken") with Some token => token | None => VNull end)
    (forwarded_fields body).

(** The request a validated login sends to the vendor. *)
Definition login_forwarded (body : value) : fetch_request :=
  login_request (prop body (js "userName")) (prop body (js "systemCode")).




End Described.

(** ** Concrete requests and vendor answers *)

Module Scenario.
Import JS Server.

(** The wording of V8 for the type errors of the handlers. *)
Definition v8_message (e : exn) : jsstring :=
  match e with
  | NullRead k => js "Cannot read properties of null (reading '" ++ k ++ js "')"
  | NotCallable k => js "body.stationCodes." ++ k ++ js " is not a function"
  | Rejected m => m
  | Unconvertible => js "Cannot convert object to primitive value"
  | BadStatus n => js "Invalid status code: " ++ decimal n
  end.

(** A vendor that gives the same answer to every request. *)
Definition answering (up : upstream_response) : fetch_request -> fetch_result :=
  fun _ => Responded up.

Definition unreachable : fetch_request -> fetch_result :=
  fun _ => Failed (js "request to https://intl.fusionsolar.huawei.com failed").

Definition credentials : value :=
  VObj [(js "userName", VStr (js "installer"));
        (js "systemCode", VStr (js "s3cret"))].

Definition only_user : value :=
  VObj [(js "userName", VStr (js "installer"))].

Definition kpi_request : value :=
  VObj [(js "xsrfToken", VStr (js "x-abc123"));
        (js "stationCodes", VStr (js "NE=1001,NE=1002"))].

Definition kpi_blank : value :=
  VObj [(js "xsrfToken", VStr (js "x-abc123"));
        (js "stationCodes", VStr (js "  "))].

Definition list_request : value :=
  VObj [(js "xsrfToken", VStr (js "x-abc123"))].

Definition kpi_bare : value := VObj [(js "stationCodes", VStr (js "NE=1001"))].

Definition logged_in : value :=
  VObj [(js "success", VBool true); (js "data", VNull)].

Definition login_answer (lines : list (jsstring * jsstring)) : upstream_response :=
  {| status := 200; statusText := js "OK";
     headers_get := headers_of lines; json := Json logged_in |}.

Definition server_error : upstream_response :=
  {| status := 500; statusText := js "Internal Server Error";
     headers_get := headers_of []; json := Malformed (js "Unexpected token <") |}.

Definition rate_limited : value :=
  VObj [(js "success", VBool false); (js "failCode", VNum 407);
        (js "data", VNull)].

(** Three snapshots: one with both readings, one whose [dataItemMap] has
    no [day_income], one without [dataItemMap]. *)
Definition three_plants : list value :=
  [VObj [(js "stationCode", VStr (js "NE=1001"));
         (js "dataItemMap", VObj [(js "day_power", VNum 12.5);
                                  (js "day_income", VNum 3.25)])];
   VObj [(js "stationCode", VStr (js "NE=1002"));
         (js "dataItemMap", VObj [(js "day_power", VNum 7.25)])];
   VObj [(js "stationCode", VStr (js "NE=1003"))]].

(** Stand-ins for the number formatter and the decimal reader, for runs in
    which no string is parsed. *)
Definition unformatted (x : float) : jsstring := [].
Definition unread (s : jsstring) : float := nan.

Definition vendor_answer (data : value) : upstream_response :=
  {| status := 200; statusText := js "OK";
     headers_get := headers_of []; json := Json data |}.

End Scenario.

(** ** The CORS origin check of the relay *)

Module Cors.
Import JS.

(** The two variables of [process.env] the relay reads. *)
Record environment : Type := {
  NODE_ENV : option jsstring;
  FRONTEND_URL : option jsstring
}.

(** [process.env.NODE_ENV === 'production']. *)
Definition production (env : environment) : bool :=
  match NODE_ENV env with
  | Some v => str_eqb v (js "production")
  | None => false
  end.

Definition allowedOrigins (env : environment) : list (option jsstring) :=
  if production env then [FRONTEND_URL env]
  else [Some (js "http://localhost:3000"); Some (js "http://localhost:3001")].

Fixpoint starts_with (needle s : jsstring) : bool :=
  match needle, s with
  | [], _ => true
  | n :: needle', c :: s' => N.eqb n c && starts_with needle' s'
  | _ :: _, [] => false
  end.

(** [String.prototype.includes]. *)
Fixpoint includes (s needle : jsstring) : bool :=
  starts_with needle s
  || match s with
     | [] => false
     | _ :: s' => includes s' needle
     end.

(** [Array.prototype.includes] for a string, on an array of strings and
    [undefined]. *)
Definition list_includes (l : list (option jsstring)) (x : jsstring) : bool :=
  existsb (fun o => match o with
                    | Some y => str_eqb y x
                    | None => false
                    end) l.

(** What the origin function passes to its callback. *)
Inductive verdict : Type :=
| Allowed
| Refused (message : jsstring).

(** The [origin] option handed to [cors]; [origin] is the request's Origin
    header, [None] when there is none. *)
Definition origin_check (env : environment) (origin : option jsstring) : verdict :=
  match origin with
  | None | Some [] => Allowed
  | Some o =>
      if production env then
        if includes o (js "railway.app") || list_includes (allowedOrigins env) o
        then Allowed
        else Refused (js "Not allowed by CORS")
      else Allowed
  end.

End Cors.

(** ** The dashboard's handlers *)

Module Client.
Import JS Dashboard.

(** *** getHealthStatus *)

Inductive icon : Type := XCircle | AlertTriangle | CheckCircle.

Record health : Type := {
  health_icon : icon;
  color : jsstring;
  text : jsstring
}.

(** [state === literal] for a string literal of a [switch] case. *)
Definition is_string (state : option value) (literal : jsstring) : bool :=
  match state with
  | Some (VStr s) => str_eqb s literal
  | _ => false
  end.

Definition getHealthStatus (state : option value) : health :=
  if is_string state (js "1") then
    {| health_icon := XCircle; color := js "text-red-500"; text := js "Disconnected" |}
  else if is_string state (js "2") then
    {| health_icon := AlertTriangle; color := js "text-yellow-500"; text := js "Faulty" |}
  else if is_string state (js "3") then
    {| health_icon := CheckCircle; color := js "text-green-500"; text := js "Healthy" |}
  else
    {| health_icon := XCircle; color := js "text-gray-500"; text := js "Unknown" |}.

(** [getHealthStatus(plant.dataItemMap?.real_health_state)] of the plant
    cards. *)
Definition plant_health (plant : value) : health :=
  getHealthStatus (reading (js "real_health_state") plant).

(** *** handlePlantSelection *)

(** Values that compare by content.  Objects and arrays compare by
    identity, which a [value] does not carry: on them the two comparisons
    below answer [false], and the properties of the selection are stated for
    codes that are [plain]: primitive and not NaN. *)
Definition plain (o : option value) : bool :=
  match o with
  | Some (VNum x) => negb (is_nan x)
  | Some (VArr _) | Some (VObj _) => false
  | _ => true
  end.

(** [a === b]. *)
Definition strict_equal (a b : option value) : bool :=
  match a, b with
  | None, None => true
  | Some VNull, Some VNull => true
  | Some (VBool x), Some (VBool y) => Bool.eqb x y
  | Some (VNum x), Some (VNum y) => PrimFloat.eqb x y
  | Some (VStr x), Some (VStr y) => str_eqb x y
  | _, _ => false
  end.

(** SameValueZero, the comparison of [Array.prototype.includes]. *)
Definition same_value_zero (a b : option value) : bool :=
  match a, b with
  | Some (VNum x), Some (VNum y) => PrimFloat.eqb x y || (is_nan x && is_nan y)
  | _, _ => strict_equal a b
  end.

(** [prev.includes(plantCode)]. *)
Definition array_includes (prev : list (option value)) (plantCode : option value)
  : bool :=
  existsb (fun code => same_value_zero code plantCode) prev.

(** The updater [handlePlantSelection] passes to [setSelectedPlants]. *)
Definition toggled (plantCode : option value) (prev : list (option value))
  : list (option value) :=
  if array_includes prev plantCode
  then filter (fun code => negb (strict_equal code plantCode)) prev
  else prev ++ [plantCode].

Definition handlePlantSelection (plantCode : option value) (s : state) : state :=
  setSelectedPlants (toggled plantCode (selectedPlants s)) s.

(** *** The state cells the claims did not need *)

Definition setLoading (b : bool) (s : state) : state :=
  {| isAuthenticated := isAuthenticated s; xsrfToken := xsrfToken s;
     availablePlants := availablePlants s; selectedPlants := selectedPlants s;
     realTimeData := realTimeData s; loading := b;
     lastUpdate := lastUpdate s; loginError := loginError s;
     showPassword := showPassword s; credentials := credentials s |}.

Definition setLastUpdate (t : N) (s : state) : state :=
  {| isAuthenticated := isAuthenticated s; xsrfToken := xsrfToken s;
     availablePlants := availablePlants s; selectedPlants := selectedPlants s;
     realTimeData := realTimeData s; loading := loading s;
     lastUpdate := t; loginError := loginError s;
     showPassword := showPassword s; credentials := credentials s |}.

(** *** Calls to the relay *)

(** A [fetch] of the dashboard: a POST with a JSON body; [content] is the
    value handed to [JSON.stringify]. *)
Record http_request : Type := {
  target : jsstring;
  content : value
}.

(** The [Response] of such a call: what [response.json()] gives and
    [response.headers.get]. *)
Record http_response : Type := {
  answer : Server.parsed;
  answer_header : jsstring -> option jsstring
}.

Inductive http_result : Type :=
| Unreachable (message : jsstring)
| Answered (r : http_response).

(** A handler runs on the component state and the list of calls issued so
    far; it may throw. *)
Definition cells : Type := (state * list http_request)%type.

Definition C (A : Type) : Type := cells -> outcome A * cells.

Definition unit_ (A : Type) (a : A) : C A := fun c => (Done a, c).

Definition raise (A : Type) (e : exn) : C A := fun c => (Throw e, c).
Arguments raise {A} e.

Definition then_ (A B : Type) (m : C A) (k : A -> C B) : C B :=
  fun c =>
    match m c with
    | (Done a, c') => k a c'
    | (Throw e, c') => (Throw e, c')
    end.

Definition of_outcome (A : Type) (o : outcome A) : C A := fun c => (o, c).

(** A state setter. *)
Definition update (f : state -> state) : C unit :=
  fun c => (Done tt, (f (fst c), snd c)).

(** [try { body } catch (error) { handler }]. *)
Definition attempt (A : Type) (body : C A) (handler : exn -> C A) : C A :=
  fun c =>
    match body c with
    | (Done a, c') => (Done a, c')
    | (Throw e, c') => handler e c'
    end.

(** [try { body } finally { cleanup }]. *)
Definition finally (A : Type) (body : C A) (cleanup : C unit) : C A :=
  fun c =>
    match body c with
    | (r, c') =>
        match cleanup c' with
        | (Done _, c'') => (r, c'')
        | (Throw e, c'') => (Throw e, c'')
        end
    end.

Declare Scope client_scope.
Delimit Scope client_scope with client.
Notation "x <-- m ;; k" := (then_ m (fun x => k))
  (at level 61, m at next level, right associativity) : client_scope.
Notation "m ;;- k" := (then_ m (fun _ => k))
  (at level 61, right associativity) : client_scope.

(** The handler run to its end on a state, with no other update in
    between: the state it leaves and the calls it made, oldest first. *)
Definition run (handler : C unit) (s : state) : state * list http_request :=
  snd (handler (s, [])).

(** [data.success === true]. *)
Definition is_true (o : option value) : bool :=
  match o with
  | Some (VBool true) => true
  | _ => false
  end.

(** [a || b] where [b] is a string literal. *)
Definition or_text (a : option value) (b : jsstring) : value :=
  match a with
  | Some v => if truthy v then v else VStr b
  | None => VStr b
  end.

(** [data.data || []]. *)
Definition or_nothing (a : option value) : value :=
  match a with
  | Some v => if truthy v then v else VArr []
  | None => VArr []
  end.

(** [data.xsrfToken || response.headers.get('xsrf-token')]: [None] stands
    for a falsy result. *)
Definition token_of (field : option value) (header : option jsstring)
  : option value :=
  if truthy_opt field then field
  else match header with
       | Some (c :: t) => Some (VStr (c :: t))
       | _ => None
       end.

Section Browser.

(** [process.env.NODE_ENV] of the build. *)
Variable NODE_ENV : option jsstring.

(** The relay, as the browser's [fetch] reaches it. *)
Variable http : http_request -> http_result.

(** [new Date()] when a poll succeeds. *)
Variable now : N.

(** Built-ins that format and read numbers: Number::toString,
    StringToNumber and [Number.prototype.toFixed(1)]. *)
Variable NumberToString : float -> jsstring.
Variable StringToNumber : jsstring -> float.
Variable toFixed1 : float -> jsstring.

Definition env_is (name : jsstring) : bool :=
  match NODE_ENV with
  | Some v => str_eqb v name
  | None => false
  end.

Definition API_BASE_URL : jsstring :=
  if env_is (js "production") then [] else js "http://localhost:3001".

(** [await fetch(url, { method: 'POST', ..., body: JSON.stringify(x) })]. *)
Definition post (path : jsstring) (x : value) : C http_response :=
  fun c =>
    let rq := {| target := API_BASE_URL ++ path; content := x |} in
    match http rq with
    | Unreachable m => (Throw (Rejected m), (fst c, snd c ++ [rq]))
    | Answered r => (Done r, (fst c, snd c ++ [rq]))
    end.

(** [await response.json()]. *)
Definition json_of (r : http_response) : C value :=
  match answer r with
  | Server.Malformed m => raise (Rejected m)
  | Server.Json v => unit_ v
  end.

(** ToNumber.  An array or an object is first converted to a string, which
    throws where ToString does. *)
Definition ToNumber (o : option value) : outcome float :=
  match o with
  | None => Done nan
  | Some VNull => Done 0%float
  | Some (VBool true) => Done 1%float
  | Some (VBool false) => Done 0%float
  | Some (VNum x) => Done x
  | Some (VStr s) => Done (StringToNumber s)
  | Some v => and_then (ToString NumberToString v) (fun s => Done (StringToNumber s))
  end.

(** One entry of [data.data.map(station => ...)]. *)
Definition plant_of (station : value) : outcome plant_entry :=
  match station with
  | VNull => Throw (NullRead (js "stationCode"))
  | _ =>
      and_then (ToNumber (prop station (js "capacity"))) (fun megawatts =>
      Done {| plant_code := prop station (js "stationCode");
              plant_name := prop station (js "stationName");
              capacity := toFixed1 (megawatts * 1000)%float ++ js " kW" |})
  end.

Fixpoint plants_of (stations : list value) : outcome (list plant_entry) :=
  match stations with
  | [] => Done []
  | station :: rest =>
      match plant_of station with
      | Throw e => Throw e
      | Done p =>
          match plants_of rest with
          | Throw e => Throw e
          | Done ps => Done (p :: ps)
          end
      end
  end.

(** [data.data.map(...)] on a truthy [data.data]: only arrays have [map]. *)
Definition map_stations (d : option value) : outcome (list plant_entry) :=
  match d with
  | Some (VArr stations) => plants_of stations
  | _ => Throw (NotCallable (js "map"))
  end.

Local Open Scope client_scope.

Definition fetchStationList (token : value) : C unit :=
  attempt
    (response <-- post (js "/api/huawei/getStationList")
                       (VObj [(js "xsrfToken", token)]) ;;
     data <-- json_of response ;;
     success <-- of_outcome (get data (js "success")) ;;
     if is_true success && truthy_opt (prop data (js "data")) then
       plants <-- of_outcome (map_stations (prop data (js "data"))) ;;
       update (setAvailablePlants plants) ;;-
       update (setSelectedPlants (map plant_code plants))
     else unit_ tt)
    (fun _ => unit_ tt).

(** [handleLogin] as the render with state [render] created it. *)
Definition handleLogin (render : state) : C unit :=
  update (setLoading true) ;;-
  update (setLoginError (VStr [])) ;;-
  finally
    (attempt
       (response <-- post (js "/api/huawei/login")
                          (VObj [(js "userName", VStr (userName (credentials render)));
                                 (js "systemCode",
                                  VStr (systemCode (credentials render)))]) ;;
        data <-- json_of response ;;
        success <-- of_outcome (get data (js "success")) ;;
        if is_true success then
          match token_of (prop data (js "xsrfToken"))
                         (answer_header response (js "xsrf-token")) with
          | Some token =>
              update (setXsrfToken token) ;;-
              fetchStationList token ;;-
              update (setIsAuthenticated true)
          | None =>
              update (setLoginError
                        (VStr (js "XSRF token not received. Please check API response.")))
          end
        else
          update (setLoginError
                    (or_text (prop data (js "message"))
                             (js "Login failed. Please check your credentials."))))
       (fun _ =>
          if env_is (js "development") then
            update (setLoginError
                      (VStr (js "Network error. Please check if the proxy server is running on port 3001.")))
          else
            update (setLoginError
                      (VStr (js "Network error. Please check your connection and try again.")))))
    (update (setLoading false)).

(** [selectedPlants.join(',')]: a code that is [undefined] or [null] counts
    as the empty string, every other code is converted by ToString, from
    left to right. *)
Fixpoint code_texts (codes : list (option value)) : outcome (list jsstring) :=
  match codes with
  | [] => Done []
  | code :: rest =>
      and_then (match code with
                | None | Some VNull => Done []
                | Some v => ToString NumberToString v
                end) (fun text =>
      and_then (code_texts rest) (fun texts => Done (text :: texts)))
  end.

Definition join_codes (codes : list (option value)) : outcome jsstring :=
  and_then (code_texts codes) (fun texts => Done (join_comma texts)).

(** [fetchRealTimeData] as the render with state [render] created it. *)
Definition fetchRealTimeData (render : state) : C unit :=
  if negb (truthy (xsrfToken render))
     || Nat.eqb (List.length (selectedPlants render)) 0
  then unit_ tt
  else
    update (setLoading true) ;;-
    finally
      (attempt
         (stationCodes <-- of_outcome (join_codes (selectedPlants render)) ;;
          response <-- post (js "/api/huawei/getStationRealKpi")
                            (VObj [(js "xsrfToken", xsrfToken render);
                                   (js "stationCodes", VStr stationCodes)]) ;;
          data <-- json_of response ;;
          success <-- of_outcome (get data (js "success")) ;;
          if is_true success then
            update (setRealTimeData (or_nothing (prop data (js "data")))) ;;-
            update (setLastUpdate now) ;;-
            update (setLoginError (VStr []))
          else if Server.is_number (prop data (js "failCode")) 407 then
            update (setLoginError
                      (VStr (js "API rate limit exceeded. Please wait before refreshing.")))
          else if Server.is_number (prop data (js "failCode")) 20010 then
            update (setLoginError
                      (VStr (js "Invalid station codes. Please check your plant selection.")))
          else
            update (setLoginError
                      (VStr (js "Failed to fetch data. Please try again later."))))
         (fun _ =>
            update (setLoginError
                      (VStr (js "Network error. Please check your connection.")))))
      (update (setLoading false)).

End Browser.

End Client.

(** ** More requests and answers *)

Module Fixtures.
Import JS Server Dashboard.

Definition credentials_and_more : value :=
  VObj [(js "userName", VStr (js "installer"));
        (js "remember", VBool true);
        (js "systemCode", VStr (js "s3cret"))].

Definition garbled : upstream_response :=
  {| status := 200; statusText := js "OK";
     headers_get := headers_of [];
     json := Malformed (js "Unexpected token < in JSON at position 0") |}.

Definition kpi_numeric_codes : value :=
  VObj [(js "xsrfToken", VStr (js "x-abc123"));
        (js "stationCodes", VNum 1001)].

Definition not_modified : upstream_response :=
  {| status := 304; statusText := js "Not Modified";
     headers_get := headers_of []; json := Malformed (js "Unexpected end of JSON input") |}.

(** A vendor answer with a number beyond the double range (written 1e400,
    read as Infinity) and a negative zero. *)
Definition beyond_range : value :=
  VObj [(js "success", VBool true);
        (js "data", VArr [VNum infinity; VNum (-0)])].


(** A snapshot that reports a day's energy only. *)
Definition metered (day_power : float) : value :=
  VObj [(js "stationCode", VStr (js "NE=1001"));
        (js "dataItemMap", VObj [(js "day_power", VNum day_power)])].

(** The same three readings in two orders. *)
Definition large_first : list value := [metered 1e16; metered 1; metered 1].
Definition large_last : list value := [metered 1; metered 1; metered 1e16].

(** Two snapshots with every summed field, one of them with a [null]
    income. *)
Definition full_plants : list value :=
  [VObj [(js "stationCode", VStr (js "NE=1001"));
         (js "dataItemMap",
          VObj [(js "day_power", VNum 12.5); (js "day_income", VNum 3.25);
                (js "month_power", VNum 310.5); (js "total_power", VNum 20480);
                (js "day_on_grid_energy", VNum 9.75)])];
   VObj [(js "stationCode", VStr (js "NE=1002"));
         (js "dataItemMap",
          VObj [(js "day_power", VNum 7.25); (js "day_income", VNull);
                (js "month_power", VNum 120.25); (js "total_power", VNum 1024);
                (js "day_on_grid_energy", VNum 0.5)])]].

(** A snapshot whose day's energy is an object with an own [toString]. *)
Definition unreadable_plant : value :=
  VObj [(js "stationCode", VStr (js "NE=1003"));
        (js "dataItemMap",
         VObj [(js "day_power", VObj [(js "toString", VNum 5)])])].

End Fixtures.

(** ** The calls of the dashboard, and states to run it on *)

Module Calls.
Import JS Dashboard Client.

Section Build.

Variable NODE_ENV : option jsstring.
Variable NumberToString : float -> jsstring.

(** The call [handleLogin] makes from the render with state [s]. *)
Definition login_call (s : state) : http_request :=
  {| target := API_BASE_URL NODE_ENV ++ js "/api/huawei/login";
     content := VObj [(js "userName", VStr (userName (credentials s)));
                      (js "systemCode", VStr (systemCode (credentials s)))] |}.

(** The call [fetchStationList] makes with a token. *)
Definition stations_call (token : value) : http_request :=
  {| target := API_BASE_URL NODE_ENV ++ js "/api/huawei/getStationList";
     content := VObj [(js "xsrfToken", token)] |}.

(** The call [fetchRealTimeData] makes from the render with state [s]; it
    makes none when joining the selected codes throws. *)
Definition poll_call (s : state) : outcome http_request :=
  and_then (join_codes NumberToString (selectedPlants s)) (fun stationCodes =>
  Done {| target := API_BASE_URL NODE_ENV ++ js "/api/huawei/getStationRealKpi";
          content := VObj [(js "xsrfToken", xsrfToken s);
                           (js "stationCodes", VStr stationCodes)] |}).

End Build.

(** The cells once [fetchStationList] has run with a token: the plant list
    and the selection are replaced when the relay answers [success: true]
    with a list of stations none of which is [null], and kept otherwise. *)
Definition listed (NODE_ENV : option jsstring) (http : http_request -> http_result)
  (NumberToString : float -> jsstring) (StringToNumber : jsstring -> float)
  (toFixed1 : float -> jsstring) (token : value) (s : state) : state :=
  match http (stations_call NODE_ENV token) with
  | Answered r =>
      match answer r with
      | Server.Json data =>
          if is_true (prop data (js "success")) && truthy_opt (prop data (js "data"))
          then
            match map_stations NumberToString StringToNumber toFixed1
                    (prop data (js "data")) with
            | Done plants =>
                setSelectedPlants (map plant_code plants) (setAvailablePlants plants s)
            | Throw _ => s
            end
          else s
      | Server.Malformed _ => s
      end
  | Unreachable _ => s
  end.

(** The relay's answer as the dashboard receives it. *)
Definition relayed (data : value) : http_result :=
  Answered {| answer := Server.Json data; answer_header := fun _ => None |}.

(** A dashboard after a login, watching two plants. *)
Definition watching : state :=
  {| isAuthenticated := true;
     xsrfToken := VStr (js "x-abc123");
     availablePlants :=
       [{| plant_code := Some (VStr (js "NE=1001"));
           plant_name := Some (VStr (js "Roof A")); capacity := js "5.0 kW" |};
        {| plant_code := Some (VStr (js "NE=1002"));
           plant_name := Some (VStr (js "Roof B")); capacity := js "7.5 kW" |}];
     selectedPlants := [Some (VStr (js "NE=1001")); Some (VStr (js "NE=1002"))];
     realTimeData := VArr Scenario.three_plants;
     loading := false;
     lastUpdate := 1700000000000%N;
     loginError := VStr [];
     showPassword := false;
     credentials := {| userName := js "installer"; systemCode := js "s3cret" |} |}.

(** A dashboard before the login, the form filled in. *)
Definition signing_in : state :=
  setCredentials {| userName := js "installer"; systemCode := js "s3cret" |}
    (initial 1700000000000%N).

Definition two_stations : value :=
  VObj [(js "success", VBool true);
        (js "data",
         VArr [VObj [(js "stationCode", VStr (js "NE=1001"));
                     (js "stationName", VStr (js "Roof A"));
                     (js "capacity", VNum 0.5)];
               VObj [(js "stationCode", VStr (js "NE=1002"));
                     (js "stationName", VStr (js "Roof B"))]])].

Definition login_granted : value :=
  VObj [(js "success", VBool true); (js "xsrfToken", VStr (js "x-abc123"))].

(** A relay that grants the login and lists two stations. *)
Definition helpful_relay (rq : http_request) : http_result :=
  if Cors.includes (target rq) (js "/login") then relayed login_granted
  else relayed two_stations.

Definition offline (rq : http_request) : http_result :=
  Unreachable (js "Failed to fetch").

End Calls.

(** * Properties *)

Import JS.

(** ** Strings and properties *)

Lemma str_eqb_eq (a b : jsstring) : str_eqb a b = true <-> a = b.
Proof.
  revert b. induction a as [|x a IH]; intros [|y b]; simpl; split; intro H;
    try reflexivity; try discriminate.
  - apply andb_true_iff in H. destruct H as [Hx Hab].
    apply N.eqb_eq in Hx. apply IH in Hab. now subst.
  - injection H as -> ->. rewrite N.eqb_refl. simpl. now apply IH.
Qed.

Lemma str_eqb_refl (a : jsstring) : str_eqb a a = true.
Proof. now apply str_eqb_eq. Qed.

Lemma str_eqb_neq (a b : jsstring) : str_eqb a b = false <-> a <> b.
Proof.
  split.
  - intros H E. apply str_eqb_eq in E. congruence.
  - intro H. destruct (str_eqb a b) eqn:E; [|reflexivity].
    apply str_eqb_eq in E. contradiction.
Qed.

Lemma str_eqb_sym (a b : jsstring) : str_eqb a b = str_eqb b a.
Proof.
  destruct (str_eqb a b) eqn:E.
  - apply str_eqb_eq in E. subst. symmetry. apply str_eqb_refl.
  - symmetry. apply str_eqb_neq. apply str_eqb_neq in E. congruence.
Qed.


Lemma lookup_without_other (k k' : jsstring) (fields : list (jsstring * value)) :
  k <> k' -> lookup k (without k' fields) = lookup k fields.
Proof.
  intro Hne. induction fields as [|[k0 v] fields IH]; simpl; [reflexivity|].
  destruct (str_eqb k' k0) eqn:E; simpl.
  - apply str_eqb_eq in E. subst k0.
    apply str_eqb_neq in Hne. rewrite Hne. exact IH.
  - destruct (str_eqb k k0); [reflexivity|exact IH].
Qed.



(** A name that is not [length] is read from the own properties. *)
Lemma prop_own (v : value) (k : jsstring) (fields : list (jsstring * value)) :
  own_props v = Some fields -> str_eqb k (js "length") = false ->
  prop v k = lookup k fields.
Proof.
  intros Hown Hk. unfold prop. rewrite Hown, Hk. now destruct (lookup k fields).
Qed.

Lemma own_props_not_null (v : value) :
  v <> VNull -> exists fields, own_props v = Some fields.
Proof.
  destruct v; intro H; try contradiction; simpl; eauto.
Qed.

Lemma get_not_null (v : value) (k : jsstring) :
  v <> VNull -> get v k = Done (prop v k).
Proof. destruct v; intro H; try contradiction; reflexivity. Qed.

(** ** Whitespace *)

Lemma trim_start_blank (s : jsstring) :
  forallb is_white_space s = true -> trim_start s = [].
Proof.
  induction s as [|c s IH]; simpl; [reflexivity|].
  intro H. apply andb_true_iff in H. destruct H as [Hc Hs].
  rewrite Hc. now apply IH.
Qed.

Lemma trim_blank (s : jsstring) :
  forallb is_white_space s = true -> trim s = [].
Proof.
  intro H. unfold trim. now rewrite (trim_start_blank s H).
Qed.

Lemma trim_start_nil (s : jsstring) :
  trim_start s = [] -> forallb is_white_space s = true.
Proof.
  induction s as [|c s IH]; simpl; [reflexivity|].
  destruct (is_white_space c); simpl; [exact IH|discriminate].
Qed.

Lemma trim_start_head (s : jsstring) (c : code_unit) (t : jsstring) :
  trim_start s = c :: t -> is_white_space c = false.
Proof.
  induction s as [|d s IH]; simpl; [discriminate|].
  destruct (is_white_space d) eqn:Ed; [exact IH|].
  intro E. injection E as -> _. exact Ed.
Qed.

Lemma trim_nil_blank (s : jsstring) :
  trim s = [] -> forallb is_white_space s = true.
Proof.
  unfold trim. intro H.
  assert (Hr : trim_start (rev (trim_start s)) = []).
  { rewrite <- (rev_involutive (trim_start (rev (trim_start s)))). now rewrite H. }
  apply trim_start_nil in Hr.
  destruct (trim_start s) as [|c t] eqn:E; [now apply trim_start_nil|].
  exfalso.
  pose proof (trim_start_head s E) as Hc.
  rewrite forallb_forall in Hr.
  assert (Hin : In c (rev (c :: t))) by (rewrite <- in_rev; now left).
  apply Hr in Hin. congruence.
Qed.

(** ** The relay handlers *)

Import Server Described.

Section Relay.

Variable fetch : fetch_request -> fetch_result.
Variable type_error_message : exn -> jsstring.

(** The login handler up to its validation. *)
Lemma login_rejects (body : value) :
  body <> VNull ->
  truthy_opt (prop body (js "userName")) = false
  \/ truthy_opt (prop body (js "systemCode")) = false ->
  login fetch type_error_message body
  = ({| code := 400;
        payload := failure (js "Username and system code are required") |}, quiet).
Proof.
  intros Hnull Hmiss.
  unfold login, try_catch, login_body, bind, lift.
  rewrite !(get_not_null _ Hnull).
  destruct Hmiss as [H|H]; rewrite H; simpl; [reflexivity|].
  now rewrite orb_true_r.
Qed.

(** The generic handler up to its token guard. *)
Lemma proxy_rejects_token (endpoint : jsstring) (body : value) :
  body <> VNull ->
  truthy_opt (prop body (js "xsrfToken")) = false ->
  proxy fetch type_error_message endpoint body
  = ({| code := 400; payload := failure (js "XSRF token is required") |}, quiet).
Proof.
  intros Hnull Hmiss.
  unfold proxy, try_catch, proxy_body, bind, lift.
  rewrite (get_not_null _ Hnull).
  destruct (own_props_not_null Hnull) as [fields Hown].
  unfold rest_without. rewrite Hown.
  destruct (prop body (js "xsrfToken")) as [token|]; [|reflexivity].
  simpl in Hmiss. now rewrite Hmiss.
Qed.

(** A null body makes the handler throw while it destructures. *)
Lemma proxy_null (endpoint : jsstring) :
  snd (proxy fetch type_error_message endpoint VNull) = quiet.
Proof. reflexivity. Qed.

(** Index names are decimal: no array or string has an own [xsrfToken]. *)
Lemma token_name_not_index (i : nat) :
  str_eqb (js "xsrfToken") (index_key i) = false.
Proof.
  unfold index_key, decimal. now destruct (N.to_uint (N.of_nat i)).
Qed.

Lemma lookup_token_indexed (A : Type) (f : A -> value) (l : list A) :
  lookup (js "xsrfToken") (indexed f l) = None.
Proof.
  unfold indexed. generalize 0 as start.
  induction l as [|x l IH]; intro start; [reflexivity|].
  cbn [List.length seq map combine lookup].
  rewrite token_name_not_index. apply IH.
Qed.

Lemma token_carrier (body token : value) :
  prop body (js "xsrfToken") = Some token ->
  exists fields, body = VObj fields /\ lookup (js "xsrfToken") fields = Some token.
Proof.
  destruct body as [| b | x | s | items | fields]; unfold prop; simpl;
    try discriminate.
  - rewrite lookup_token_indexed. discriminate.
  - rewrite lookup_token_indexed. discriminate.
  - intro H. exists fields. split; [reflexivity|].
    destruct (lookup (js "xsrfToken") fields); [exact H|discriminate].
Qed.

Lemma object_prop (fields : list (jsstring * value)) (k : jsstring) :
  prop (VObj fields) k = lookup k fields.
Proof.
  unfold prop. simpl. destruct (lookup k fields); [reflexivity|].
  now destruct (str_eqb k (js "length")).
Qed.

(** A validated request reaches the forwarding part with the token and the
    rest of its body. *)
Lemma proxy_reaches_forward (endpoint : jsstring) (body : value) :
  validated endpoint body = true ->
  exists token fields,
    body = VObj fields
    /\ lookup (js "xsrfToken") fields = Some token
    /\ truthy token = true
    /\ forall w, proxy_body fetch endpoint body w
                 = forward fetch endpoint token (without (js "xsrfToken") fields) w.
Proof.
  unfold validated. intro H. apply andb_true_iff in H. destruct H as [Htok Hsc].
  destruct (prop body (js "xsrfToken")) as [token|] eqn:Hp; [|discriminate].
  simpl in Htok.
  destruct (token_carrier _ Hp) as [fields [-> Hl]].
  exists token, fields. repeat split; try assumption.
  intro w. unfold proxy_body, bind, lift. cbn [get rest_without own_props].
  rewrite Hp, Htok. cbn [negb].
  destruct (str_eqb endpoint (js "getStationRealKpi")) eqn:He; [|reflexivity].
  simpl in Hsc. rewrite object_prop in Hsc.
  rewrite lookup_without_other by (intro E; discriminate E).
  destruct (lookup (js "stationCodes") fields) as [[| b | x | s | items | fs]|];
    try discriminate.
  simpl in Hsc.
  destruct s as [|c s]; [discriminate|].
  cbn [truthy_opt truthy negb call_trim ret].
  destruct (str_eqb (trim (c :: s)) []) eqn:Et; [|reflexivity].
  apply str_eqb_eq in Et. apply trim_nil_blank in Et.
  rewrite Et in Hsc. discriminate.
Qed.

(** Whatever the vendor does, the forwarding part issues one request. *)
Lemma forward_one_request (endpoint : jsstring) (token : value)
  (rest : list (jsstring * value)) (w : world) :
  requests (snd (forward fetch endpoint token rest w))
  = requests w ++ [proxy_request endpoint token rest].
Proof.
  unfold forward, bind, do_fetch.
  destruct (fetch (proxy_request endpoint token rest)) as [m|up]; [reflexivity|].
  destruct (ok up); [|reflexivity]. cbn [negb].
  unfold response_json. destruct (json up) as [m|data]; [reflexivity|].
  unfold ret, lift.
  destruct data; try reflexivity; cbn [get];
    destruct (truthy_opt _); cbn [negb]; try reflexivity;
    destruct (is_number _ 407); try reflexivity;
    destruct (is_number _ 20010); reflexivity.
Qed.

Lemma forward_failure (endpoint : jsstring) (token : value)
  (rest : list (jsstring * value)) (up : upstream_response) (w : world) :
  fetch (proxy_request endpoint token rest) = Responded up ->
  ok up = false ->
  forward fetch endpoint token rest w
  = (Done {| code := status up;
             payload := failure (js "API error: " ++ decimal (status up)
                                 ++ js " " ++ statusText up) |},
     sent w (proxy_request endpoint token rest)).
Proof.
  intros Hf Hok. unfold forward, bind, do_fetch. rewrite Hf, Hok. reflexivity.
Qed.


Lemma proxy_validated_run (endpoint : jsstring) (body : value) :
  validated endpoint body = true ->
  exists token fields,
    body = VObj fields
    /\ lookup (js "xsrfToken") fields = Some token
    /\ truthy token = true
    /\ forwarded endpoint body
       = proxy_request endpoint token (without (js "xsrfToken") fields)
    /\ proxy fetch type_error_message endpoint body
       = try_catch type_error_message
           (forward fetch endpoint token (without (js "xsrfToken") fields))
           (js "Proxy server error") quiet.
Proof.
  intro H. destruct (proxy_reaches_forward _ _ H) as (token & fields & -> & Hl & Ht & Hrun).
  exists token, fields. repeat split; try assumption.
  - unfold forwarded, forwarded_fields. rewrite object_prop, Hl. reflexivity.
  - unfold proxy, try_catch. now rewrite Hrun.
Qed.

Lemma login_validated_fields (body : value) :
  login_validated body = true ->
  body <> VNull
  /\ truthy_opt (prop body (js "userName")) = true
  /\ truthy_opt (prop body (js "systemCode")) = true.
Proof.
  unfold login_validated. intro H. apply andb_true_iff in H. destruct H as [Hu Hs].
  repeat split; try assumption. intros ->. discriminate Hu.
Qed.

Lemma login_failure (body : value) (up : upstream_response) :
  login_validated body = true ->
  fetch (login_forwarded body) = Responded up ->
  ok up = false ->
  login fetch type_error_message body
  = ({| code := status up;
        payload := failure (js "Login API error: " ++ decimal (status up)
                            ++ js " " ++ statusText up) |},
     sent quiet (login_forwarded body)).
Proof.
  intros Hv Hf Hok. destruct (login_validated_fields _ Hv) as (Hnull & Hu & Hs).
  unfold login, try_catch, login_body, bind, lift, do_fetch.
  rewrite !(get_not_null _ Hnull), Hu, Hs. cbn [negb orb].
  unfold login_forwarded in Hf. rewrite Hf, Hok. reflexivity.
Qed.



End Relay.

Lemma try_catch_world (tem : exn -> jsstring) (body : M reply) (error : jsstring)
  (w : world) :
  snd (try_catch tem body error w) = snd (body w).
Proof.
  unfold try_catch. now destruct (body w) as [[r|e] w'].
Qed.

Lemma in_without (k k' : jsstring) (v : value) (fields : list (jsstring * value)) :
  In (k, v) (without k' fields) <-> In (k, v) fields /\ k <> k'.
Proof.
  unfold without. rewrite filter_In. simpl.
  rewrite negb_true_iff, str_eqb_neq.
  split; intros [H1 H2]; split; auto.
Qed.

(** Token guard, read backwards: a request reaches the vendor only for a
    body that carries a truthy token. *)
Lemma vendor_call_carries_token (fetch : fetch_request -> fetch_result)
  (tem : exn -> jsstring) (endpoint : jsstring) (body : value) :
  requests (snd (proxy fetch tem endpoint body)) <> [] ->
  truthy_opt (prop body (js "xsrfToken")) = true.
Proof.
  intro Hcall.
  destruct (truthy_opt (prop body (js "xsrfToken"))) eqn:Ht; [reflexivity|].
  exfalso. apply Hcall.
  destruct body as [| b | x | s | items | fs]; [reflexivity| | | | |];
    rewrite (@proxy_rejects_token fetch tem endpoint _) by (discriminate || exact Ht);
    reflexivity.
Qed.

(** ** JSON on the wire *)






Lemma wire_failure (msg : jsstring) : wire (failure msg) = failure msg.
Proof. reflexivity. Qed.

Lemma wire_failure_details (error details : jsstring) :
  wire (failure_details error details) = failure_details error details.
Proof. reflexivity. Qed.


Lemma answered_mirrored (tem : exn -> jsstring) (error msg : jsstring) (n : N) :
  (100 <=? n)%N = true ->
  (n <=? 999)%N = true ->
  answered tem error {| code := n; payload := failure msg |}
  = {| sent_status := n;
       sent_body := if bodiless n then None else Some (failure msg) |}.
Proof.
  intros Hlo Hhi. unfold answered, res_json. cbn [code payload].
  apply N.leb_le in Hlo. apply N.leb_le in Hhi.
  assert (H1 : (n <? 100)%N = false) by (apply N.ltb_ge; exact Hlo).
  assert (H2 : (999 <? n)%N = false) by (apply N.ltb_ge; exact Hhi).
  rewrite H1, H2. cbn [orb]. now rewrite wire_failure.
Qed.

Lemma answered_refused (tem : exn -> jsstring) (error msg : jsstring) (n : N) :
  (100 <=? n)%N = false \/ (n <=? 999)%N = false ->
  answered tem error {| code := n; payload := failure msg |}
  = {| sent_status := 500;
       sent_body := Some (failure_details error (tem (BadStatus n))) |}.
Proof.
  intro H. unfold answered, res_json. cbn [code payload].
  assert (Hbad : ((n <? 100)%N || (999 <? n)%N) = true).
  { apply orb_true_iff. destruct H as [H|H].
    - left. apply N.ltb_lt. apply N.leb_gt in H. exact H.
    - right. apply N.ltb_lt. apply N.leb_gt in H. exact H. }
  now rewrite Hbad.
Qed.

(** ** The claims about the relay *)




(** C3.  A [getStationRealKpi] call that carries a token but whose
    [stationCodes] is absent, empty or blank is answered 400 with
    [success: false] and the fixed message, and no request goes to the
    vendor. *)
Theorem station_codes_required (fetch : fetch_request -> fetch_result)
  (tem : exn -> jsstring) (body : value) :
  truthy_opt (prop body (js "xsrfToken")) = true ->
  blank (prop body (js "stationCodes")) = true ->
  proxy fetch tem (js "getStationRealKpi") body
  = ({| code := 400;
        payload := VObj [(js "success", VBool false);
                         (js "error",
                          VStr (js "stationCodes parameter is required and cannot be empty"))] |},
     {| requests := []; warnings := [] |}).
Proof.
  intros Htok Hblank.
  destruct (prop body (js "xsrfToken")) as [token|] eqn:Hp; [|discriminate].
  simpl in Htok.
  destruct (token_carrier _ Hp) as [fields [-> Hl]].
  rewrite object_prop in Hblank.
  unfold proxy, try_catch, proxy_body, bind, lift.
  cbn [get rest_without own_props]. rewrite Hp, Htok.
  cbn [negb]. rewrite str_eqb_refl.
  rewrite lookup_without_other by (intro E; discriminate E).
  destruct (lookup (js "stationCodes") fields) as [v|]; [|reflexivity].
  unfold blank in Hblank. cbn [truthy_opt].
  destruct v as [| b | x | s | items | fs];
    try (rewrite Hblank; reflexivity); try discriminate.
  destruct s as [|c s]; [reflexivity|].
  cbn [truthy negb call_trim].
  now rewrite (trim_blank (c :: s) Hblank).
Qed.

Lemma station_codes_required_witness :
  proxy Scenario.unreachable Scenario.v8_message (js "getStationRealKpi")
        Scenario.kpi_blank
  = ({| code := 400;
        payload := VObj [(js "success", VBool false);
                         (js "error",
                          VStr (js "stationCodes parameter is required and cannot be empty"))] |},
     {| requests := []; warnings := [] |}).
Proof.
  apply station_codes_required; reflexivity.
Defined.

(** C4.  A generic call whose body has no [xsrfToken], or a falsy one, is
    answered 400 with [success: false] and 'XSRF token is required', and no
    request goes to the vendor. *)
Theorem token_required (fetch : fetch_request -> fetch_result)
  (tem : exn -> jsstring) (endpoint : jsstring) (body : value) :
  body <> VNull ->
  truthy_opt (prop body (js "xsrfToken")) = false ->
  proxy fetch tem endpoint body
  = ({| code := 400;
        payload := VObj [(js "success", VBool false);
                         (js "error", VStr (js "XSRF token is required"))] |},
     {| requests := []; warnings := [] |}).
Proof.
  intros Hnull Hmiss. now apply proxy_rejects_token.
Qed.

Lemma token_required_witness :
  proxy Scenario.unreachable Scenario.v8_message (js "getStationList") (VObj [])
  = ({| code := 400;
        payload := VObj [(js "success", VBool false);
                         (js "error", VStr (js "XSRF token is required"))] |},
     {| requests := []; warnings := [] |}).
Proof.
  apply token_required; [discriminate | reflexivity].
Defined.

(** C5.  A login whose body has no [userName] or no [systemCode] (absent or
    falsy) is answered 400 with [success: false], and no request goes to
    the vendor. *)
Theorem login_requires_credentials (fetch : fetch_request -> fetch_result)
  (tem : exn -> jsstring) (body : value) :
  body <> VNull ->
  truthy_opt (prop body (js "userName")) = false
  \/ truthy_opt (prop body (js "systemCode")) = false ->
  login fetch tem body
  = ({| code := 400;
        payload := VObj [(js "success", VBool false);
                         (js "error",
                          VStr (js "Username and system code are required"))] |},
     {| requests := []; warnings := [] |}).
Proof.
  intros Hnull Hmiss. now apply login_rejects.
Qed.

Lemma login_requires_credentials_witness :
  login Scenario.unreachable Scenario.v8_message Scenario.only_user
  = ({| code := 400;
        payload := VObj [(js "success", VBool false);
                         (js "error",
                          VStr (js "Username and system code are required"))] |},
     {| requests := []; warnings := [] |}).
Proof.
  apply login_requires_credentials; [discriminate | right; reflexivity].
Defined.

(** C6 (as amended).  On both routes, when a validated request is answered
    by the vendor with a status outside 200..299 (and within 100..999), the
    relay answers with that status; unless the status is one that is sent
    without a body (304 and the 1xx statuses), the body is
    [{success: false, error}], where [error] is the route's prefix followed
    by the status in decimal, a space and the status text. *)
Theorem upstream_failure_mirrored (fetch : fetch_request -> fetch_result)
  (tem : exn -> jsstring) :
  (forall body up,
      login_validated body = true ->
      fetch (login_forwarded body) = Responded up ->
      ok up = false ->
      (100 <=? status up)%N = true ->
      (status up <=? 999)%N = true ->
      fst (relay_login fetch tem body)
      = {| sent_status := status up;
           sent_body :=
             if bodiless (status up) then None
             else Some (VObj [(js "success", VBool false);
                              (js "error",
                               VStr (js "Login API error: " ++ decimal (status up)
                                     ++ js " " ++ statusText up))]) |})
  /\ (forall endpoint body up,
        validated endpoint body = true ->
        fetch (forwarded endpoint body) = Responded up ->
        ok up = false ->
        (100 <=? status up)%N = true ->
        (status up <=? 999)%N = true ->
        fst (relay_proxy fetch tem endpoint body)
        = {| sent_status := status up;
             sent_body :=
               if bodiless (status up) then None
               else Some (VObj [(js "success", VBool false);
                                (js "error",
                                 VStr (js "API error: " ++ decimal (status up)
                                       ++ js " " ++ statusText up))]) |}).
Proof.
  split.
  - intros body up Hv Hf Hok Hlo Hhi. unfold relay_login. cbn [fst].
    rewrite (@login_failure fetch tem body up Hv Hf Hok). cbn [fst].
    now rewrite (answered_mirrored tem _ _ (status up) Hlo Hhi).
  - intros endpoint body up Hv Hf Hok Hlo Hhi. unfold relay_proxy. cbn [fst].
    destruct (@proxy_validated_run fetch tem endpoint body Hv)
      as (token & fields & _ & _ & _ & Hrq & Hrun).
    rewrite Hrun. rewrite Hrq in Hf. unfold try_catch.
    rewrite (@forward_failure fetch endpoint token _ up quiet Hf Hok). cbn [fst].
    now rewrite (answered_mirrored tem _ _ (status up) Hlo Hhi).
Qed.

Lemma upstream_failure_mirrored_witness :
  fst (relay_login (Scenario.answering Scenario.server_error) Scenario.v8_message
                   Scenario.credentials)
  = {| sent_status := 500;
       sent_body :=
         Some (VObj [(js "success", VBool false);
                     (js "error",
                      VStr (js "Login API error: 500 Internal Server Error"))]) |}
  /\ fst (relay_proxy (Scenario.answering Scenario.server_error) Scenario.v8_message
                      (js "getStationRealKpi") Scenario.kpi_request)
     = {| sent_status := 500;
          sent_body :=
            Some (VObj [(js "success", VBool false);
                        (js "error",
                         VStr (js "API error: 500 Internal Server Error"))]) |}.
Proof.
  split.
  - exact (proj1 (upstream_failure_mirrored
                    (Scenario.answering Scenario.server_error) Scenario.v8_message)
                 Scenario.credentials Scenario.server_error
                 eq_refl eq_refl eq_refl eq_refl eq_refl).
  - exact (proj2 (upstream_failure_mirrored
                    (Scenario.answering Scenario.server_error) Scenario.v8_message)
                 (js "getStationRealKpi") Scenario.kpi_request Scenario.server_error
                 eq_refl eq_refl eq_refl eq_refl eq_refl).
Defined.

(** C6 as stated fails: the vendor answers 304, a status outside 200..299;
    the relay answers 304 as well, but a 304 goes without a body, so the
    caller receives no [{success: false, error}]. *)
Lemma not_modified_has_no_body :
  ok Fixtures.not_modified = false
  /\ login_validated Scenario.credentials = true
  /\ fst (relay_login (Scenario.answering Fixtures.not_modified) Scenario.v8_message
                      Scenario.credentials)
     = {| sent_status := 304; sent_body := None |}
  /\ validated (js "getStationRealKpi") Scenario.kpi_request = true
  /\ fst (relay_proxy (Scenario.answering Fixtures.not_modified) Scenario.v8_message
                      (js "getStationRealKpi") Scenario.kpi_request)
     = {| sent_status := 304; sent_body := None |}.
Proof. repeat split. Qed.



(** A number beyond the double range comes back as [null]. *)
Example beyond_range_is_nulled :
  fst (relay_proxy (Scenario.answering (Scenario.vendor_answer Fixtures.beyond_range))
                   Scenario.v8_message (js "getStationRealKpi") Scenario.kpi_request)
  = {| sent_status := 200;
       sent_body := Some (VObj [(js "success", VBool true);
                                (js "data", VArr [VNull; VNum 0])]) |}.
Proof. vm_compute. reflexivity. Qed.


(** C9.  On a [getStationRealKpi] call that lacks both the token and the
    station codes, the token is checked first: the 400 answer carries
    'XSRF token is required', not the message about [stationCodes]. *)
Theorem token_checked_first (fetch : fetch_request -> fetch_result)
  (tem : exn -> jsstring) (body : value) :
  body <> VNull ->
  truthy_opt (prop body (js "xsrfToken")) = false ->
  blank (prop body (js "stationCodes")) = true ->
  code (fst (proxy fetch tem (js "getStationRealKpi") body)) = 400%N
  /\ prop (payload (fst (proxy fetch tem (js "getStationRealKpi") body))) (js "error")
     = Some (VStr (js "XSRF token is required"))
  /\ prop (payload (fst (proxy fetch tem (js "getStationRealKpi") body))) (js "error")
     <> Some (VStr (js "stationCodes parameter is required and cannot be empty")).
Proof.
  intros Hnull Htok _.
  rewrite (@proxy_rejects_token fetch tem (js "getStationRealKpi") body Hnull Htok).
  repeat split. intro H. discriminate H.
Qed.

Lemma token_checked_first_witness :
  code (fst (proxy Scenario.unreachable Scenario.v8_message
                   (js "getStationRealKpi") (VObj []))) = 400%N
  /\ prop (payload (fst (proxy Scenario.unreachable Scenario.v8_message
                               (js "getStationRealKpi") (VObj [])))) (js "error")
     = Some (VStr (js "XSRF token is required"))
  /\ prop (payload (fst (proxy Scenario.unreachable Scenario.v8_message
                               (js "getStationRealKpi") (VObj [])))) (js "error")
     <> Some (VStr (js "stationCodes parameter is required and cannot be empty")).
Proof.
  apply token_checked_first; [discriminate | reflexivity | reflexivity].
Defined.




(** ** The dashboard *)

Import Dashboard.

(** C8.  After [handleLogout] the token is the empty string, the user is
    not authenticated, and the plant list, the selection, the telemetry,
    the credentials and the error message are what they were at the first
    render; the other cells keep their values. *)
Theorem logout_resets_session (s : state) (now : N) :
  xsrfToken (handleLogout s) = VStr []
  /\ isAuthenticated (handleLogout s) = false
  /\ availablePlants (handleLogout s) = []
  /\ selectedPlants (handleLogout s) = []
  /\ realTimeData (handleLogout s) = VArr []
  /\ credentials (handleLogout s) = {| userName := []; systemCode := [] |}
  /\ loginError (handleLogout s) = VStr []
  /\ handleLogout s
     = {| isAuthenticated := isAuthenticated (initial now);
          xsrfToken := xsrfToken (initial now);
          availablePlants := availablePlants (initial now);
          selectedPlants := selectedPlants (initial now);
          realTimeData := realTimeData (initial now);
          loading := loading s;
          lastUpdate := lastUpdate s;
          loginError := loginError (initial now);
          showPassword := showPassword s;
          credentials := credentials (initial now) |}.
Proof.
  destruct s. repeat split.
Qed.

(** The reading the callback takes is the snapshot's reading. *)
Lemma reading_through (k : jsstring) (plant : value) :
  str_eqb k (js "length") = false ->
  prop (or_empty (prop plant (js "dataItemMap"))) k = reading k plant.
Proof.
  intro Hk. unfold reading, or_empty.
  destruct (prop plant (js "dataItemMap")) as [d|].
  - destruct (truthy d) eqn:Ht; [reflexivity|].
    rewrite object_prop. simpl.
    destruct d as [| b | x | [|c s] | items | fs]; try discriminate;
      unfold prop; simpl; rewrite ?Hk; reflexivity.
  - now rewrite object_prop.
Qed.

(** What one snapshot adds is the amount of its reading. *)
Lemma contribution_amount (nts : float -> jsstring) (pfs : jsstring -> float)
  (k : jsstring) (plant : value) :
  str_eqb k (js "length") = false ->
  parseFloat nts pfs (or_zero (prop (or_empty (prop plant (js "dataItemMap"))) k))
  = amount nts pfs k plant.
Proof.
  intro Hk. rewrite (reading_through k plant Hk). unfold amount, or_zero.
  destruct (reading k plant) as [v|]; [|reflexivity].
  now destruct (truthy v).
Qed.

Lemma add_plant_amounts (nts : float -> jsstring) (pfs : jsstring -> float)
  (t : totals) (plant : value) :
  plant <> VNull ->
  add_plant nts pfs t plant
  = and_then (amount nts pfs (js "day_power") plant) (fun a1 =>
    and_then (amount nts pfs (js "day_income") plant) (fun a2 =>
    and_then (amount nts pfs (js "month_power") plant) (fun a3 =>
    and_then (amount nts pfs (js "total_power") plant) (fun a4 =>
    and_then (amount nts pfs (js "day_on_grid_energy") plant) (fun a5 =>
    Done {| totalDayPower := (totalDayPower t + a1)%float;
            totalRevenue := (totalRevenue t + a2)%float;
            totalMonthPower := (totalMonthPower t + a3)%float;
            totalLifetimePower := (totalLifetimePower t + a4)%float;
            totalOnGridEnergy := (totalOnGridEnergy t + a5)%float |}))))).
Proof.
  intro Hnull. unfold add_plant. rewrite (get_not_null _ Hnull). cbv zeta.
  now rewrite !contribution_amount by reflexivity.
Qed.

Lemma addable_amounts (nts : float -> jsstring) (pfs : jsstring -> float)
  (plant : value) :
  addable nts pfs plant = true <->
  plant <> VNull
  /\ exists a1 a2 a3 a4 a5,
      amount nts pfs (js "day_power") plant = Done a1
      /\ amount nts pfs (js "day_income") plant = Done a2
      /\ amount nts pfs (js "month_power") plant = Done a3
      /\ amount nts pfs (js "total_power") plant = Done a4
      /\ amount nts pfs (js "day_on_grid_energy") plant = Done a5.
Proof.
  assert (Hall : forallb (fun k => match amount nts pfs k plant with
                                   | Done _ => true
                                   | Throw _ => false
                                   end) summed_fields = true
                 <-> exists a1 a2 a3 a4 a5,
                     amount nts pfs (js "day_power") plant = Done a1
                     /\ amount nts pfs (js "day_income") plant = Done a2
                     /\ amount nts pfs (js "month_power") plant = Done a3
                     /\ amount nts pfs (js "total_power") plant = Done a4
                     /\ amount nts pfs (js "day_on_grid_energy") plant = Done a5).
  { unfold summed_fields. cbn [forallb].
    destruct (amount nts pfs (js "day_power") plant) as [a1|e1];
      destruct (amount nts pfs (js "day_income") plant) as [a2|e2];
      destruct (amount nts pfs (js "month_power") plant) as [a3|e3];
      destruct (amount nts pfs (js "total_power") plant) as [a4|e4];
      destruct (amount nts pfs (js "day_on_grid_energy") plant) as [a5|e5];
      cbn [andb];
      (split;
       [ intro H; try discriminate H;
         exists a1, a2, a3, a4, a5; repeat split
       | intros (b1 & b2 & b3 & b4 & b5 & H1 & H2 & H3 & H4 & H5);
         try discriminate; reflexivity ]). }
  destruct plant as [| b | x | s | items | fs]; cbn [addable];
    try (rewrite Hall; split; [intro H; split; [discriminate | exact H]
                              | intros [_ H]; exact H]).
  split; [discriminate | intros [H _]; now contradiction H].
Qed.

(** The totals over snapshots that can all be added. *)
Lemma reduce_totals (nts : float -> jsstring) (pfs : jsstring -> float)
  (items : list value) :
  forallb (addable nts pfs) items = true ->
  forall acc,
  exists t l1 l2 l3 l4 l5,
    reduce (add_plant nts pfs) items acc = Done t
    /\ amounts nts pfs (js "day_power") items = Done l1
    /\ amounts nts pfs (js "day_income") items = Done l2
    /\ amounts nts pfs (js "month_power") items = Done l3
    /\ amounts nts pfs (js "total_power") items = Done l4
    /\ amounts nts pfs (js "day_on_grid_energy") items = Done l5
    /\ totalDayPower t = fold_left PrimFloat.add l1 (totalDayPower acc)
    /\ totalRevenue t = fold_left PrimFloat.add l2 (totalRevenue acc)
    /\ totalMonthPower t = fold_left PrimFloat.add l3 (totalMonthPower acc)
    /\ totalLifetimePower t = fold_left PrimFloat.add l4 (totalLifetimePower acc)
    /\ totalOnGridEnergy t = fold_left PrimFloat.add l5 (totalOnGridEnergy acc).
Proof.
  induction items as [|plant items IH]; intros Hall acc.
  - exists acc, [], [], [], [], []. repeat split.
  - cbn [forallb] in Hall. apply andb_true_iff in Hall. destruct Hall as [Hp Hrest].
    apply addable_amounts in Hp.
    destruct Hp as (Hnull & a1 & a2 & a3 & a4 & a5 & H1 & H2 & H3 & H4 & H5).
    cbn [reduce amounts]. rewrite (add_plant_amounts nts pfs acc Hnull).
    rewrite H1, H2, H3, H4, H5. cbn [and_then].
    match goal with
    | |- context [reduce _ _ ?a] =>
        destruct (IH Hrest a)
          as (t & l1 & l2 & l3 & l4 & l5 & Hrun & E1 & E2 & E3 & E4 & E5
              & T1 & T2 & T3 & T4 & T5)
    end.
    rewrite Hrun, E1, E2, E3, E4, E5. cbn [and_then].
    exists t, (a1 :: l1), (a2 :: l2), (a3 :: l3), (a4 :: l4), (a5 :: l5).
    repeat split; assumption.
Qed.

(** A snapshot that cannot be added makes the callback throw. *)
Lemma add_plant_throws (nts : float -> jsstring) (pfs : jsstring -> float)
  (t : totals) (plant : value) :
  addable nts pfs plant = false -> exists e, add_plant nts pfs t plant = Throw e.
Proof.
  intro Hno.
  destruct (add_plant nts pfs t plant) as [t'|e] eqn:Hrun; [|now exists e].
  exfalso.
  assert (Hnull : plant <> VNull) by (intros ->; discriminate Hrun).
  rewrite (add_plant_amounts nts pfs t Hnull) in Hrun.
  assert (Hyes : addable nts pfs plant = true).
  { apply addable_amounts. split; [exact Hnull|].
    destruct (amount nts pfs (js "day_power") plant) as [a1|]; [|discriminate Hrun].
    destruct (amount nts pfs (js "day_income") plant) as [a2|]; [|discriminate Hrun].
    destruct (amount nts pfs (js "month_power") plant) as [a3|]; [|discriminate Hrun].
    destruct (amount nts pfs (js "total_power") plant) as [a4|]; [|discriminate Hrun].
    destruct (amount nts pfs (js "day_on_grid_energy") plant) as [a5|];
      [|discriminate Hrun].
    exists a1, a2, a3, a4, a5. repeat split. }
  congruence.
Qed.

Lemma reduce_done_addable (nts : float -> jsstring) (pfs : jsstring -> float)
  (items : list value) :
  forall acc t,
    reduce (add_plant nts pfs) items acc = Done t ->
    forallb (addable nts pfs) items = true.
Proof.
  induction items as [|plant items IH]; intros acc t Hrun; [reflexivity|].
  cbn [reduce forallb] in *.
  destruct (addable nts pfs plant) eqn:Hp.
  - destruct (add_plant nts pfs acc plant) as [acc'|e]; [|discriminate Hrun].
    cbn [andb]. exact (IH acc' t Hrun).
  - destruct (add_plant_throws nts pfs acc plant Hp) as [e He].
    rewrite He in Hrun. discriminate Hrun.
Qed.

(** What a reading counts for, case by case. *)
Lemma amount_of_reading (nts : float -> jsstring) (pfs : jsstring -> float)
  (k : jsstring) (plant : value) :
  (reading k plant = None -> amount nts pfs k plant = Done 0%float)
  /\ (forall v, reading k plant = Some v -> truthy v = false ->
        amount nts pfs k plant = Done 0%float)
  /\ (forall x, reading k plant = Some (VNum x) -> truthy (VNum x) = true ->
        amount nts pfs k plant = Done x)
  /\ (forall c t, reading k plant = Some (VStr (c :: t)) ->
        amount nts pfs k plant = Done (pfs (c :: t))).
Proof.
  unfold amount. repeat split.
  - now intros ->.
  - intros v -> Hv. now rewrite Hv.
  - intros x -> Hx. rewrite Hx. cbn [parseFloat].
    cbn [truthy] in Hx. apply andb_true_iff in Hx. destruct Hx as [Hz _].
    apply negb_true_iff in Hz. now rewrite Hz.
  - now intros c t ->.
Qed.

(** C2 (as amended).  For every list of plant snapshots that can all be
    added (none is [null] and no summed field fails to convert),
    [calculateTotals] returns totals whose [totalDayPower] is the binary64
    sum, taken left to right from 0, of what the snapshots' [day_power]
    readings count for, and whose [totalRevenue] is that sum for
    [day_income]: a reading counts for [parseFloat] of it, a number for
    itself, and a missing [dataItemMap] or a missing or falsy field for
    zero. *)
Theorem calculateTotals_sums (NumberToString : float -> jsstring)
  (parseFloatString : jsstring -> float) (s : state) (items : list value) :
  realTimeData s = VArr items ->
  forallb (addable NumberToString parseFloatString) items = true ->
  (exists t day_power day_income,
      calculateTotals NumberToString parseFloatString s = Done t
      /\ amounts NumberToString parseFloatString (js "day_power") items
         = Done day_power
      /\ amounts NumberToString parseFloatString (js "day_income") items
         = Done day_income
      /\ totalDayPower t = sum day_power
      /\ totalRevenue t = sum day_income)
  /\ (forall plant k,
        reading k plant = None ->
        amount NumberToString parseFloatString k plant = Done 0%float)
  /\ (forall plant k v,
        reading k plant = Some v -> truthy v = false ->
        amount NumberToString parseFloatString k plant = Done 0%float)
  /\ (forall plant k x,
        reading k plant = Some (VNum x) -> truthy (VNum x) = true ->
        amount NumberToString parseFloatString k plant = Done x)
  /\ (forall plant k c t,
        reading k plant = Some (VStr (c :: t)) ->
        amount NumberToString parseFloatString k plant
        = Done (parseFloatString (c :: t))).
Proof.
  intros Hdata Hall. split.
  - unfold calculateTotals. rewrite Hdata.
    destruct (reduce_totals NumberToString parseFloatString items Hall no_totals)
      as (t & l1 & l2 & l3 & l4 & l5 & Hrun & E1 & E2 & _ & _ & _ & T1 & T2 & _).
    exists t, l1, l2. repeat split; assumption.
  - repeat split; intros plant k;
      apply (amount_of_reading NumberToString parseFloatString k plant).
Qed.

Lemma calculateTotals_sums_witness :
  exists t day_power day_income,
    calculateTotals Scenario.unformatted Scenario.unread
      (setRealTimeData (VArr Fixtures.full_plants) (initial 0)) = Done t
    /\ amounts Scenario.unformatted Scenario.unread (js "day_power")
         Fixtures.full_plants = Done day_power
    /\ amounts Scenario.unformatted Scenario.unread (js "day_income")
         Fixtures.full_plants = Done day_income
    /\ totalDayPower t = sum day_power
    /\ totalRevenue t = sum day_income.
Proof.
  apply (proj1 (@calculateTotals_sums Scenario.unformatted Scenario.unread
                  (setRealTimeData (VArr Fixtures.full_plants) (initial 0))
                  Fixtures.full_plants eq_refl eq_refl)).
Defined.

(** C2 as stated fails: the total is a floating-point sum taken in the
    order of the list.  The readings 1e16, 1, 1 add up to 1e16, while in
    the order 1, 1, 1e16 they add up to 10000000000000002, which is their
    arithmetic sum. *)
Lemma totals_depend_on_order :
  calculateTotals Scenario.unformatted Scenario.unread
    (setRealTimeData (VArr Fixtures.large_first) (initial 0))
  = Done {| totalDayPower := 1e16; totalRevenue := 0; totalMonthPower := 0;
            totalLifetimePower := 0; totalOnGridEnergy := 0 |}
  /\ calculateTotals Scenario.unformatted Scenario.unread
       (setRealTimeData (VArr Fixtures.large_last) (initial 0))
     = Done {| totalDayPower := 10000000000000002; totalRevenue := 0;
               totalMonthPower := 0; totalLifetimePower := 0;
               totalOnGridEnergy := 0 |}
  /\ (10000000000000000 + 1 + 1 = 10000000000000002)%Z
  /\ 1e16%float <> 10000000000000002%float.
Proof.
  repeat split; try (vm_compute; reflexivity).
  intro H. discriminate H.
Qed.

(** ** Runs *)

Example three_plants_totals :
  calculateTotals Scenario.unformatted Scenario.unread
    (setRealTimeData (VArr Scenario.three_plants) (initial 0))
  = Done {| totalDayPower := 19.75; totalRevenue := 3.25; totalMonthPower := 0;
            totalLifetimePower := 0; totalOnGridEnergy := 0 |}.
Proof. vm_compute. reflexivity. Qed.

Example decimal_status : decimal 500 = js "500".
Proof. reflexivity. Qed.

Example trim_station_codes : trim (js "  NE=1001 ") = js "NE=1001".
Proof. reflexivity. Qed.

Example header_names_ignore_case :
  headers_of [(js "Xsrf-Token", js "x-abc123")] (js "XSRF-TOKEN")
  = Some (js "x-abc123").
Proof. reflexivity. Qed.

(** The login handler tries [xsrf-token] before [X-XSRF-TOKEN]. *)
Example login_prefers_first_header :
  payload (fst (login (Scenario.answering
                         (Scenario.login_answer [(js "X-XSRF-TOKEN", js "second");
                                                 (js "xsrf-token", js "first")]))
                      Scenario.v8_message Scenario.credentials))
  = VObj [(js "success", VBool true); (js "data", VNull);
          (js "xsrfToken", VStr (js "first"))].
Proof. reflexivity. Qed.

(** A 2xx login answer whose JSON body is [null] ends in the catch block. *)
Example login_null_answer :
  code (fst (login (Scenario.answering (Scenario.vendor_answer VNull))
                   Scenario.v8_message Scenario.credentials)) = 500%N.
Proof. reflexivity. Qed.

(** Station codes that are neither a string nor falsy end in the catch
    block: [trim] is not a function on them. *)
Example station_codes_number :
  proxy Scenario.unreachable Scenario.v8_message (js "getStationRealKpi")
        (VObj [(js "xsrfToken", VStr (js "x-abc123"));
               (js "stationCodes", VNum 7)])
  = ({| code := 500;
        payload := failure_details (js "Proxy server error")
                     (js "body.stationCodes.trim is not a function") |}, quiet).
Proof. reflexivity. Qed.

(** * Further properties of the relay *)

(** The login handler of a validated body, opened up to the vendor call. *)
Ltac open_login body Hv :=
  let Hnull := fresh "Hnull" in
  let Hu := fresh "Hu" in
  let Hs := fresh "Hs" in
  destruct (login_validated_fields _ Hv) as (Hnull & Hu & Hs);
  unfold login, try_catch, login_body, bind, lift, do_fetch, response_json;
  rewrite !(get_not_null _ Hnull), Hu, Hs; cbn [negb orb];
  change (login_request (prop body (js "userName")) (prop body (js "systemCode")))
    with (login_forwarded body).

Section RelayRuns.

Variable fetch : fetch_request -> fetch_result.
Variable tem : exn -> jsstring.

(** A generic call that fails validation leaves no trace. *)
Lemma proxy_unvalidated_quiet (endpoint : jsstring) (body : value) :
  validated endpoint body = false ->
  snd (proxy fetch tem endpoint body) = quiet.
Proof.
  intro Hv.
  destruct body as [| b | x | s | items | fields];
    try (rewrite (@proxy_rejects_token fetch tem endpoint _);
         [reflexivity | discriminate | ];
         unfold prop; simpl; rewrite ?lookup_token_indexed; reflexivity).
  - reflexivity.
  - unfold validated in Hv. rewrite !object_prop in Hv.
    destruct (truthy_opt (lookup (js "xsrfToken") fields)) eqn:Ht.
    + destruct (lookup (js "xsrfToken") fields) as [token|] eqn:Hl; [|discriminate].
      simpl in Ht, Hv.
      destruct (str_eqb endpoint (js "getStationRealKpi")) eqn:He; [|discriminate].
      simpl in Hv.
      unfold proxy. rewrite try_catch_world.
      unfold proxy_body, bind, lift. cbn [get rest_without own_props].
      rewrite object_prop, Hl, Ht, He. cbn [negb].
      rewrite lookup_without_other by (intro E; discriminate E).
      destruct (lookup (js "stationCodes") fields) as [v|]; [|reflexivity].
      cbn [truthy_opt].
      destruct (truthy v) eqn:Hv'; [|reflexivity]. cbn [negb].
      destruct v as [| b | x | s | items | fs]; try reflexivity.
      simpl in Hv. apply negb_false_iff in Hv.
      cbn [call_trim ret]. now rewrite (trim_blank s Hv).
    + rewrite (@proxy_rejects_token fetch tem endpoint (VObj fields));
        [reflexivity | discriminate | now rewrite object_prop].
Qed.

Lemma login_unvalidated_quiet (body : value) :
  login_validated body = false ->
  snd (login fetch tem body) = quiet.
Proof.
  intro Hv. destruct body as [| b | x | s | items | fields]; [reflexivity | | | | |];
    (rewrite (@login_rejects fetch tem _); [reflexivity | discriminate | ];
     unfold login_validated in Hv; apply andb_false_iff in Hv; exact Hv).
Qed.

(** Whatever the vendor does, a validated login issues one request. *)
Lemma login_one_request (body : value) :
  login_validated body = true ->
  requests (snd (login fetch tem body)) = [login_forwarded body].
Proof.
  intro Hv. open_login body Hv.
  destruct (fetch (login_forwarded body)) as [m|up]; [reflexivity|].
  destruct (ok up); [|reflexivity]. cbn [negb].
  destruct (json up) as [m|data]; [reflexivity|].
  destruct data; try reflexivity;
    destruct (extract_token up) as [[|c t]|]; reflexivity.
Qed.

(** The answers of the two handlers, sorted by how they come about. *)
Lemma proxy_reply_cases (endpoint : jsstring) (body : value) :
  (exists msg, fst (proxy fetch tem endpoint body) = {| code := 400; payload := failure msg |})
  \/ (exists error details,
        fst (proxy fetch tem endpoint body)
        = {| code := 500; payload := failure_details error details |})
  \/ (exists up msg,
        fetch (forwarded endpoint body) = Responded up /\ ok up = false
        /\ fst (proxy fetch tem endpoint body)
           = {| code := status up; payload := failure msg |})
  \/ (exists up data,
        validated endpoint body = true
        /\ fetch (forwarded endpoint body) = Responded up /\ ok up = true
        /\ json up = Json data
        /\ fst (proxy fetch tem endpoint body) = {| code := 200; payload := data |}).
Proof.
  destruct (validated endpoint body) eqn:Hv.
  - destruct (@proxy_validated_run fetch tem endpoint body Hv)
      as (token & fields & _ & _ & _ & Hrq & Hrun).
    rewrite Hrun, Hrq. unfold try_catch, forward, bind, do_fetch, response_json.
    destruct (fetch (proxy_request endpoint token (without (js "xsrfToken") fields)))
      as [m|up] eqn:Hf.
    + right; left; eexists; eexists; reflexivity.
    + destruct (ok up) eqn:Hok; cbn [negb].
      * destruct (json up) as [m|data] eqn:Hj.
        { right; left; eexists; eexists; reflexivity. }
        destruct data as [| b | x | s | items | fs];
          [right; left; eexists; eexists; reflexivity | | | | |];
          (right; right; right; eexists; eexists;
           split; [reflexivity|]; split; [reflexivity|];
           split; [exact Hok|]; split; [exact Hj|];
           unfold lift, ret; cbn [get];
           destruct (truthy_opt _); cbn [negb]; try reflexivity;
           destruct (is_number _ 407); try reflexivity;
           destruct (is_number _ 20010); reflexivity).
      * right; right; left. eexists; eexists.
        split; [reflexivity|]. split; [exact Hok|]. reflexivity.
  - destruct body as [| b | x | s | items | fields].
    + right; left; eexists; eexists; reflexivity.
    + left. rewrite (@proxy_rejects_token fetch tem endpoint _); [eexists; reflexivity|discriminate|reflexivity].
    + left. rewrite (@proxy_rejects_token fetch tem endpoint _); [eexists; reflexivity|discriminate|reflexivity].
    + left. rewrite (@proxy_rejects_token fetch tem endpoint _); [eexists; reflexivity|discriminate|].
      unfold prop; simpl. now rewrite lookup_token_indexed.
    + left. rewrite (@proxy_rejects_token fetch tem endpoint _); [eexists; reflexivity|discriminate|].
      unfold prop; simpl. now rewrite lookup_token_indexed.
    + unfold validated in Hv. rewrite !object_prop in Hv.
      destruct (truthy_opt (lookup (js "xsrfToken") fields)) eqn:Ht.
      * destruct (lookup (js "xsrfToken") fields) as [token|] eqn:Hl; [|discriminate].
        simpl in Ht, Hv.
        destruct (str_eqb endpoint (js "getStationRealKpi")) eqn:He; [|discriminate].
        simpl in Hv.
        unfold proxy, try_catch, proxy_body, bind, lift.
        cbn [get rest_without own_props].
        rewrite object_prop, Hl, Ht, He. cbn [negb].
        rewrite lookup_without_other by (intro E; discriminate E).
        destruct (lookup (js "stationCodes") fields) as [v|]; [|left; eexists; reflexivity].
        cbn [truthy_opt].
        destruct (truthy v) eqn:Hv'; [|left; eexists; reflexivity]. cbn [negb].
        destruct v as [| b | x | s | items | fs];
          try (right; left; eexists; eexists; reflexivity).
        simpl in Hv. apply negb_false_iff in Hv.
        cbn [call_trim ret]. rewrite (trim_blank s Hv). left. eexists; reflexivity.
      * left.
        rewrite (@proxy_rejects_token fetch tem endpoint (VObj fields));
          [eexists; reflexivity | discriminate | now rewrite object_prop].
Qed.

Lemma login_reply_cases (body : value) :
  (exists msg, fst (login fetch tem body) = {| code := 400; payload := failure msg |})
  \/ (exists error details,
        fst (login fetch tem body)
        = {| code := 500; payload := failure_details error details |})
  \/ (exists up msg,
        fetch (login_forwarded body) = Responded up /\ ok up = false
        /\ fst (login fetch tem body) = {| code := status up; payload := failure msg |})
  \/ (exists up data,
        login_validated body = true
        /\ fetch (login_forwarded body) = Responded up /\ ok up = true
        /\ json up = Json data
        /\ code (fst (login fetch tem body)) = 200%N).
Proof.
  destruct (login_validated body) eqn:Hv.
  - open_login body Hv.
    destruct (fetch (login_forwarded body)) as [m|up] eqn:Hf.
    + right; left; eexists; eexists; reflexivity.
    + destruct (ok up) eqn:Hok; cbn [negb].
      * destruct (json up) as [m|data] eqn:Hj.
        { right; left; eexists; eexists; reflexivity. }
        destruct data as [| b | x | s | items | fs];
          [right; left; eexists; eexists; reflexivity | | | | |];
          (right; right; right; eexists; eexists;
           split; [reflexivity|]; split; [reflexivity|];
           split; [exact Hok|]; split; [exact Hj|];
           destruct (extract_token up) as [[|c t]|]; reflexivity).
      * right; right; left. eexists; eexists.
        split; [reflexivity|]. split; [exact Hok|]. reflexivity.
  - destruct body as [| b | x | s | items | fields]; [right; left; eexists; eexists; reflexivity | | | | |];
      (left; rewrite (@login_rejects fetch tem _);
       [eexists; reflexivity | discriminate |
        unfold login_validated in Hv; apply andb_false_iff in Hv; exact Hv]).
Qed.

End RelayRuns.

(** X1.  On both routes the relay calls the vendor exactly when the request
    passes the local validation, and then exactly once, whatever the vendor
    answers. *)
Theorem vendor_called_iff_validated (fetch : fetch_request -> fetch_result)
  (tem : exn -> jsstring) (endpoint : jsstring) (body : value) :
  requests (snd (proxy fetch tem endpoint body))
  = (if validated endpoint body then [forwarded endpoint body] else [])
  /\ requests (snd (login fetch tem body))
     = (if login_validated body then [login_forwarded body] else []).
Proof.
  split.
  - destruct (validated endpoint body) eqn:Hv.
    + destruct (@proxy_validated_run fetch tem endpoint body Hv)
        as (token & fields & _ & _ & _ & Hrq & Hrun).
      now rewrite Hrun, try_catch_world, forward_one_request, Hrq.
    + now rewrite (proxy_unvalidated_quiet fetch tem endpoint body Hv).
  - destruct (login_validated body) eqn:Hv.
    + now apply login_one_request.
    + now rewrite (login_unvalidated_quiet fetch tem body Hv).
Qed.

(** X2.  A validated login sends the vendor's login URL a body made of
    [userName] and [systemCode] only, in that order; other fields of the
    request body are not forwarded. *)
Theorem login_sends_credentials_only (fetch : fetch_request -> fetch_result)
  (tem : exn -> jsstring) (body : value) :
  login_validated body = true ->
  exists u c,
    prop body (js "userName") = Some u
    /\ prop body (js "systemCode") = Some c
    /\ requests (snd (login fetch tem body))
       = [{| url := js "https://intl.fusionsolar.huawei.com/thirdData/login";
             method := js "POST";
             req_headers := [(js "Content-Type", VStr (js "application/json"));
                             (js "User-Agent", VStr (js "Solar-Monitor-App/1.0"))];
             req_body := VObj [(js "userName", u); (js "systemCode", c)] |}].
Proof.
  intro Hv. rewrite (login_one_request fetch tem body Hv).
  destruct (login_validated_fields _ Hv) as (_ & Hu & Hs).
  unfold login_forwarded, login_request.
  destruct (prop body (js "userName")) as [u|]; [|discriminate].
  destruct (prop body (js "systemCode")) as [c|]; [|discriminate].
  exists u, c. repeat split.
Qed.

Lemma login_sends_credentials_only_witness :
  exists u c,
    prop Fixtures.credentials_and_more (js "userName") = Some u
    /\ prop Fixtures.credentials_and_more (js "systemCode") = Some c
    /\ requests (snd (login Scenario.unreachable Scenario.v8_message
                            Fixtures.credentials_and_more))
       = [{| url := js "https://intl.fusionsolar.huawei.com/thirdData/login";
             method := js "POST";
             req_headers := [(js "Content-Type", VStr (js "application/json"));
                             (js "User-Agent", VStr (js "Solar-Monitor-App/1.0"))];
             req_body := VObj [(js "userName", u); (js "systemCode", c)] |}].
Proof.
  apply login_sends_credentials_only. reflexivity.
Defined.

(** X3.  When the vendor cannot be reached (the [fetch] promise rejects), a
    validated request is answered 500 with the route's fixed error and the
    rejection's message as [details]. *)
Theorem vendor_unreachable_is_500 (fetch : fetch_request -> fetch_result)
  (tem : exn -> jsstring) :
  (forall body m,
      login_validated body = true ->
      fetch (login_forwarded body) = Failed m ->
      fst (login fetch tem body)
      = {| code := 500;
           payload := VObj [(js "success", VBool false);
                            (js "error", VStr (js "Login proxy server error"));
                            (js "details", VStr m)] |})
  /\ (forall endpoint body m,
        validated endpoint body = true ->
        fetch (forwarded endpoint body) = Failed m ->
        fst (proxy fetch tem endpoint body)
        = {| code := 500;
             payload := VObj [(js "success", VBool false);
                              (js "error", VStr (js "Proxy server error"));
                              (js "details", VStr m)] |}).
Proof.
  split.
  - intros body m Hv Hf. open_login body Hv. now rewrite Hf.
  - intros endpoint body m Hv Hf.
    destruct (@proxy_validated_run fetch tem endpoint body Hv)
      as (token & fields & _ & _ & _ & Hrq & Hrun).
    rewrite Hrun. rewrite Hrq in Hf.
    unfold try_catch, forward, bind, do_fetch. now rewrite Hf.
Qed.

Lemma vendor_unreachable_is_500_witness :
  fst (login Scenario.unreachable Scenario.v8_message Scenario.credentials)
  = {| code := 500;
       payload := VObj [(js "success", VBool false);
                        (js "error", VStr (js "Login proxy server error"));
                        (js "details",
                         VStr (js "request to https://intl.fusionsolar.huawei.com failed"))] |}
  /\ fst (proxy Scenario.unreachable Scenario.v8_message (js "getStationList")
                Scenario.list_request)
     = {| code := 500;
          payload := VObj [(js "success", VBool false);
                           (js "error", VStr (js "Proxy server error"));
                           (js "details",
                            VStr (js "request to https://intl.fusionsolar.huawei.com failed"))] |}.
Proof.
  split.
  - exact (proj1 (vendor_unreachable_is_500 Scenario.unreachable Scenario.v8_message)
                 Scenario.credentials _ eq_refl eq_refl).
  - exact (proj2 (vendor_unreachable_is_500 Scenario.unreachable Scenario.v8_message)
                 (js "getStationList") Scenario.list_request _ eq_refl eq_refl).
Defined.

(** X4.  When the vendor answers 2xx with a body that is not JSON, a
    validated request is answered 500 with the parser's message as
    [details]. *)
Theorem malformed_answer_is_500 (fetch : fetch_request -> fetch_result)
  (tem : exn -> jsstring) :
  (forall body up m,
      login_validated body = true ->
      fetch (login_forwarded body) = Responded up ->
      ok up = true ->
      json up = Malformed m ->
      fst (login fetch tem body)
      = {| code := 500;
           payload := VObj [(js "success", VBool false);
                            (js "error", VStr (js "Login proxy server error"));
                            (js "details", VStr m)] |})
  /\ (forall endpoint body up m,
        validated endpoint body = true ->
        fetch (forwarded endpoint body) = Responded up ->
        ok up = true ->
        json up = Malformed m ->
        fst (proxy fetch tem endpoint body)
        = {| code := 500;
             payload := VObj [(js "success", VBool false);
                              (js "error", VStr (js "Proxy server error"));
                              (js "details", VStr m)] |}).
Proof.
  split.
  - intros body up m Hv Hf Hok Hj. open_login body Hv. now rewrite Hf, Hok, Hj.
  - intros endpoint body up m Hv Hf Hok Hj.
    destruct (@proxy_validated_run fetch tem endpoint body Hv)
      as (token & fields & _ & _ & _ & Hrq & Hrun).
    rewrite Hrun. rewrite Hrq in Hf.
    unfold try_catch, forward, bind, do_fetch, response_json.
    now rewrite Hf, Hok, Hj.
Qed.

Lemma malformed_answer_is_500_witness :
  fst (login (Scenario.answering Fixtures.garbled) Scenario.v8_message
             Scenario.credentials)
  = {| code := 500;
       payload := VObj [(js "success", VBool false);
                        (js "error", VStr (js "Login proxy server error"));
                        (js "details",
                         VStr (js "Unexpected token < in JSON at position 0"))] |}
  /\ fst (proxy (Scenario.answering Fixtures.garbled) Scenario.v8_message
                (js "getStationRealKpi") Scenario.kpi_request)
     = {| code := 500;
          payload := VObj [(js "success", VBool false);
                           (js "error", VStr (js "Proxy server error"));
                           (js "details",
                            VStr (js "Unexpected token < in JSON at position 0"))] |}.
Proof.
  split.
  - exact (proj1 (malformed_answer_is_500 (Scenario.answering Fixtures.garbled)
                    Scenario.v8_message)
                 Scenario.credentials Fixtures.garbled _
                 eq_refl eq_refl eq_refl eq_refl).
  - exact (proj2 (malformed_answer_is_500 (Scenario.answering Fixtures.garbled)
                    Scenario.v8_message)
                 (js "getStationRealKpi") Scenario.kpi_request Fixtures.garbled _
                 eq_refl eq_refl eq_refl eq_refl).
Defined.

(** X5.  For every request body the handler is given (an object or an
    array), whatever the vendor does: an answer of the relay with a status
    other than 200 either goes without a body (a mirrored 304 or 1xx) or has
    the shape [{success: false, error: <string>, ...}], on both routes. *)
Theorem failure_replies_have_error_shape (fetch : fetch_request -> fetch_result)
  (tem : exn -> jsstring) (endpoint : jsstring) (body : value) :
  parsed_body body = true ->
  (sent_status (fst (relay_proxy fetch tem endpoint body)) <> 200%N ->
   match sent_body (fst (relay_proxy fetch tem endpoint body)) with
   | None => bodiless (sent_status (fst (relay_proxy fetch tem endpoint body))) = true
   | Some received =>
       prop received (js "success") = Some (VBool false)
       /\ exists msg, prop received (js "error") = Some (VStr msg)
   end)
  /\ (sent_status (fst (relay_login fetch tem body)) <> 200%N ->
      match sent_body (fst (relay_login fetch tem body)) with
      | None => bodiless (sent_status (fst (relay_login fetch tem body))) = true
      | Some received =>
          prop received (js "success") = Some (VBool false)
          /\ exists msg, prop received (js "error") = Some (VStr msg)
      end).
Proof.
  intros _.
  assert (Hmirror : forall error msg n,
             match sent_body (answered tem error {| code := n; payload := failure msg |}) with
             | None =>
                 bodiless (sent_status
                             (answered tem error {| code := n; payload := failure msg |}))
                 = true
             | Some received =>
                 prop received (js "success") = Some (VBool false)
                 /\ exists m, prop received (js "error") = Some (VStr m)
             end).
  { intros error msg n.
    destruct ((100 <=? n)%N) eqn:Hlo; [destruct ((n <=? 999)%N) eqn:Hhi|].
    - rewrite (answered_mirrored tem error msg n Hlo Hhi). cbn [sent_body sent_status].
      destruct (bodiless n); [reflexivity|].
      split; [reflexivity | eexists; reflexivity].
    - rewrite (answered_refused tem error msg n (or_intror Hhi)).
      split; [reflexivity | eexists; reflexivity].
    - rewrite (answered_refused tem error msg n (or_introl Hlo)).
      split; [reflexivity | eexists; reflexivity]. }
  split; intro Hcode.
  - unfold relay_proxy in *. cbn [fst] in *.
    destruct (proxy_reply_cases fetch tem endpoint body)
      as [[msg H] | [[e [d H]] | [[up [msg [_ [_ H]]]] | [up [data [_ [_ [_ [_ H]]]]]]]]];
      rewrite H in Hcode |- *.
    + split; [reflexivity | eexists; reflexivity].
    + split; [reflexivity | eexists; reflexivity].
    + apply Hmirror.
    + now contradiction Hcode.
  - unfold relay_login in *. cbn [fst] in *.
    destruct (login_reply_cases fetch tem body)
      as [[msg H] | [[e [d H]] | [[up [msg [_ [_ H]]]] | [up [data [_ [_ [_ [_ H]]]]]]]]].
    + rewrite H. split; [reflexivity | eexists; reflexivity].
    + rewrite H. split; [reflexivity | eexists; reflexivity].
    + rewrite H. apply Hmirror.
    + exfalso. apply Hcode.
      destruct (fst (login fetch tem body)) as [c p]. cbn [code] in H. subst c.
      reflexivity.
Qed.

Lemma failure_replies_have_error_shape_witness :
  match sent_body (fst (relay_proxy Scenario.unreachable Scenario.v8_message
                                    (js "getStationList") Scenario.list_request)) with
  | None =>
      bodiless (sent_status
                  (fst (relay_proxy Scenario.unreachable Scenario.v8_message
                                    (js "getStationList") Scenario.list_request)))
      = true
  | Some received =>
      prop received (js "success") = Some (VBool false)
      /\ exists msg, prop received (js "error") = Some (VStr msg)
  end.
Proof.
  apply (proj1 (@failure_replies_have_error_shape Scenario.unreachable
                  Scenario.v8_message (js "getStationList") Scenario.list_request
                  eq_refl)).
  discriminate.
Defined.

(** X6.  The relay answers 200 only when the request passed validation and
    the vendor answered the forwarded request with a 2xx status and a JSON
    body; on the generic route the body of the answer is then the vendor's
    JSON as [JSON.stringify] writes it. *)
Theorem success_only_from_vendor (fetch : fetch_request -> fetch_result)
  (tem : exn -> jsstring) (endpoint : jsstring) (body : value) :
  (sent_status (fst (relay_proxy fetch tem endpoint body)) = 200%N ->
   validated endpoint body = true
   /\ exists up data,
       fetch (forwarded endpoint body) = Responded up
       /\ ok up = true
       /\ json up = Json data
       /\ sent_body (fst (relay_proxy fetch tem endpoint body)) = Some (wire data))
  /\ (sent_status (fst (relay_login fetch tem body)) = 200%N ->
      login_validated body = true
      /\ exists up data,
          fetch (login_forwarded body) = Responded up
          /\ ok up = true
          /\ json up = Json data).
Proof.
  assert (Hnot : forall error up msg,
             ok up = false ->
             sent_status (answered tem error
                            {| code := status up; payload := failure msg |})
             <> 200%N).
  { intros error up msg Hok.
    destruct ((100 <=? status up)%N) eqn:Hlo;
      [destruct ((status up <=? 999)%N) eqn:Hhi|].
    - rewrite (answered_mirrored tem error msg (status up) Hlo Hhi).
      cbn [sent_status]. intro E. unfold ok in Hok. rewrite E in Hok. discriminate.
    - rewrite (answered_refused tem error msg (status up) (or_intror Hhi)). discriminate.
    - rewrite (answered_refused tem error msg (status up) (or_introl Hlo)). discriminate. }
  split; intro Hcode.
  - unfold relay_proxy in *. cbn [fst] in *.
    destruct (proxy_reply_cases fetch tem endpoint body)
      as [[msg H] | [[e [d H]] | [[up [msg [_ [Hok H]]]] | [up [data [Hv [Hf [Hok [Hj H]]]]]]]]];
      rewrite H in Hcode |- *; try discriminate Hcode.
    + now apply Hnot in Hcode.
    + split; [exact Hv|]. exists up, data. now repeat split.
  - unfold relay_login in *. cbn [fst] in *.
    destruct (login_reply_cases fetch tem body)
      as [[msg H] | [[e [d H]] | [[up [msg [_ [Hok H]]]] | [up [data [Hv [Hf [Hok [Hj H]]]]]]]]];
      try (rewrite H in Hcode; try discriminate Hcode).
    + now apply Hnot in Hcode.
    + split; [exact Hv|]. exists up, data. now repeat split.
Qed.

Lemma success_only_from_vendor_witness :
  validated (js "getStationRealKpi") Scenario.kpi_request = true
  /\ exists up data,
      Scenario.answering (Scenario.vendor_answer Scenario.rate_limited)
        (forwarded (js "getStationRealKpi") Scenario.kpi_request) = Responded up
      /\ ok up = true
      /\ json up = Json data
      /\ sent_body (fst (relay_proxy (Scenario.answering
                                        (Scenario.vendor_answer Scenario.rate_limited))
                                     Scenario.v8_message (js "getStationRealKpi")
                                     Scenario.kpi_request))
         = Some (wire data).
Proof.
  apply (proj1 (success_only_from_vendor
                  (Scenario.answering (Scenario.vendor_answer Scenario.rate_limited))
                  Scenario.v8_message (js "getStationRealKpi") Scenario.kpi_request)).
  reflexivity.
Defined.

(** X7.  A [getStationRealKpi] call with a token whose [stationCodes] is
    truthy but not a string (a number, [true], an array, an object) is
    answered 500: calling [trim] on it throws.  No request goes to the
    vendor. *)
Theorem station_codes_not_a_string (fetch : fetch_request -> fetch_result)
  (tem : exn -> jsstring) (body v : value) :
  truthy_opt (prop body (js "xsrfToken")) = true ->
  prop body (js "stationCodes") = Some v ->
  truthy v = true ->
  (forall s, v <> VStr s) ->
  proxy fetch tem (js "getStationRealKpi") body
  = ({| code := 500;
        payload := VObj [(js "success", VBool false);
                         (js "error", VStr (js "Proxy server error"));
                         (js "details", VStr (tem (NotCallable (js "trim"))))] |},
     {| requests := []; warnings := [] |}).
Proof.
  intros Htok Hsc Hv Hstr.
  destruct (prop body (js "xsrfToken")) as [token|] eqn:Hp; [|discriminate].
  simpl in Htok.
  destruct (token_carrier _ Hp) as [fields [-> Hl]].
  rewrite object_prop in Hsc.
  unfold proxy, try_catch, proxy_body, bind, lift.
  cbn [get rest_without own_props]. rewrite Hp, Htok.
  cbn [negb]. rewrite str_eqb_refl.
  rewrite lookup_without_other by (intro E; discriminate E).
  rewrite Hsc. cbn [truthy_opt]. rewrite Hv. cbn [negb].
  destruct v as [| b | x | s | items | fs]; try reflexivity; try discriminate.
  exfalso. now apply (Hstr s).
Qed.

Lemma station_codes_not_a_string_witness :
  proxy Scenario.unreachable Scenario.v8_message (js "getStationRealKpi")
        Fixtures.kpi_numeric_codes
  = ({| code := 500;
        payload := VObj [(js "success", VBool false);
                         (js "error", VStr (js "Proxy server error"));
                         (js "details",
                          VStr (Scenario.v8_message (NotCallable (js "trim"))))] |},
     {| requests := []; warnings := [] |}).
Proof.
  apply (@station_codes_not_a_string Scenario.unreachable Scenario.v8_message
           Fixtures.kpi_numeric_codes (VNum 1001));
    [reflexivity | reflexivity | reflexivity | intros s H; discriminate H].
Defined.

(** * The origin check *)

Import Cors.

Lemma starts_with_spec (needle s : jsstring) :
  starts_with needle s = true <-> exists rest, s = needle ++ rest.
Proof.
  revert s. induction needle as [|n needle IH]; intro s; simpl.
  - split; [intros _; now exists s | reflexivity].
  - destruct s as [|c s].
    + split; [discriminate | intros [rest H]; discriminate H].
    + rewrite andb_true_iff, N.eqb_eq, IH. split.
      * intros [-> [rest ->]]. now exists rest.
      * intros [rest H]. injection H as -> ->. split; [reflexivity | now exists rest].
Qed.

Lemma includes_spec (s needle : jsstring) :
  includes s needle = true <-> exists before after, s = before ++ needle ++ after.
Proof.
  induction s as [|c s IH].
  - simpl. rewrite orb_false_r, starts_with_spec. split.
    + intros [rest H]. now exists [], rest.
    + intros [before [after H]]. destruct before as [|b before]; [|discriminate H].
      now exists after.
  - cbn [includes]. rewrite orb_true_iff, starts_with_spec, IH. split.
    + intros [[rest H] | [before [after H]]].
      * now exists [], rest.
      * exists (c :: before), after. now rewrite H.
    + intros [[|b before] [after H]].
      * left. now exists after.
      * right. injection H as -> ->. now exists before, after.
Qed.

(** X8.  The origin check lets a request through exactly when it has no
    Origin header (or an empty one), or the relay does not run in
    production, or the origin contains the text railway.app anywhere, or
    the origin is FRONTEND_URL. *)
Theorem origin_allowed_iff (env : environment) (origin : option jsstring) :
  origin_check env origin = Allowed
  <-> origin = None
      \/ origin = Some []
      \/ production env = false
      \/ exists o,
           origin = Some o
           /\ ((exists before after, o = before ++ js "railway.app" ++ after)
               \/ FRONTEND_URL env = Some o).
Proof.
  destruct origin as [[|c o]|]; cbn [origin_check].
  - split; auto.
  - destruct (production env) eqn:Hp.
    + unfold allowedOrigins. rewrite Hp. cbn [list_includes existsb].
      rewrite orb_false_r.
      destruct (includes (c :: o) (js "railway.app")) eqn:Hi; cbn [orb].
      * split; [intros _ | reflexivity].
        right; right; right. exists (c :: o). split; [reflexivity|].
        left. now apply includes_spec.
      * destruct (FRONTEND_URL env) as [u|] eqn:Hu.
        -- destruct (str_eqb u (c :: o)) eqn:He.
           ++ apply str_eqb_eq in He. subst u.
              split; [intros _ | reflexivity].
              right; right; right. exists (c :: o). auto.
           ++ split; [discriminate|].
              intros [H | [H | [H | [o' [H [Hin | Hf]]]]]]; try discriminate.
              ** injection H as <-. apply includes_spec in Hin. congruence.
              ** injection H as <-. injection Hf as ->.
                 rewrite str_eqb_refl in He. discriminate.
        -- split; [discriminate|].
           intros [H | [H | [H | [o' [H [Hin | Hf]]]]]]; try discriminate.
           injection H as <-. apply includes_spec in Hin. congruence.
    + split; auto.
  - split; auto.
Qed.

(** In production an origin that only contains railway.app is let through. *)
Example lookalike_origin_allowed :
  origin_check {| NODE_ENV := Some (js "production");
                  FRONTEND_URL := Some (js "https://solar.up.railway.app") |}
               (Some (js "https://railway.app.example.net"))
  = Allowed.
Proof. reflexivity. Qed.

Example foreign_origin_refused :
  origin_check {| NODE_ENV := Some (js "production");
                  FRONTEND_URL := Some (js "https://solar.up.railway.app") |}
               (Some (js "https://example.net"))
  = Refused (js "Not allowed by CORS").
Proof. reflexivity. Qed.

(** * Further properties of the dashboard *)

Import Client Calls.

(** ** Totals *)

(** X9.  [calculateTotals] returns totals exactly when every snapshot can
    be added: none is [null], and each of the five summed fields is missing,
    falsy, or converts to a string.  On every other list it throws, as for a
    field that is an object with an own [toString]. *)
Theorem calculateTotals_returns_iff_addable (nts : float -> jsstring)
  (pfs : jsstring -> float) (s : state) (items : list value) :
  realTimeData s = VArr items ->
  ((exists t, calculateTotals nts pfs s = Done t)
   <-> forallb (addable nts pfs) items = true)
  /\ (In VNull items -> exists e, calculateTotals nts pfs s = Throw e)
  /\ (forall plant fields other,
        In plant items ->
        reading (js "day_power") plant = Some (VObj fields) ->
        lookup (js "toString") fields = Some other ->
        exists e, calculateTotals nts pfs s = Throw e).
Proof.
  intro Hdata. unfold calculateTotals. rewrite Hdata.
  assert (Hiff : (exists t, reduce (add_plant nts pfs) items no_totals = Done t)
                 <-> forallb (addable nts pfs) items = true).
  { split.
    - intros [t Hrun]. exact (reduce_done_addable nts pfs items no_totals Hrun).
    - intro Hall.
      destruct (reduce_totals nts pfs items Hall no_totals) as (t & _ & _ & _ & _ & _ & Hrun & _).
      now exists t. }
  assert (Hthrow : forall plant, In plant items -> addable nts pfs plant = false ->
                   exists e, reduce (add_plant nts pfs) items no_totals = Throw e).
  { intros plant Hin Hno.
    destruct (reduce (add_plant nts pfs) items no_totals) as [t|e] eqn:Hrun;
      [|now exists e].
    exfalso. pose proof (reduce_done_addable nts pfs items no_totals Hrun) as Hall.
    rewrite forallb_forall in Hall. rewrite (Hall plant Hin) in Hno. discriminate. }
  split; [exact Hiff|]. split.
  - intro Hin. now apply (Hthrow VNull Hin).
  - intros plant fields other Hin Hread Hown. apply (Hthrow plant Hin).
    destruct (addable nts pfs plant) eqn:Hp; [|reflexivity].
    apply addable_amounts in Hp. destruct Hp as (_ & a1 & _ & _ & _ & _ & H1 & _).
    unfold amount in H1. rewrite Hread in H1. cbn [truthy parseFloat ToString] in H1.
    rewrite Hown in H1. discriminate H1.
Qed.

Lemma calculateTotals_returns_iff_addable_witness :
  exists e,
    calculateTotals Scenario.unformatted Scenario.unread
      (setRealTimeData (VArr (Fixtures.full_plants ++ [Fixtures.unreadable_plant]))
         (initial 0))
    = Throw e.
Proof.
  apply (proj2 (proj2 (@calculateTotals_returns_iff_addable Scenario.unformatted
                  Scenario.unread
                  (setRealTimeData
                     (VArr (Fixtures.full_plants ++ [Fixtures.unreadable_plant]))
                     (initial 0))
                  (Fixtures.full_plants ++ [Fixtures.unreadable_plant]) eq_refl))
           Fixtures.unreadable_plant [(js "toString", VNum 5)] (VNum 5));
    [simpl; auto | reflexivity | reflexivity].
Defined.

Example unreadable_plant_throws :
  calculateTotals Scenario.unformatted Scenario.unread
    (setRealTimeData (VArr [Fixtures.unreadable_plant]) (initial 0))
  = Throw Unconvertible.
Proof. reflexivity. Qed.

(** X10.  The three other totals are sums as well: over snapshots that can
    all be added, [totalMonthPower], [totalLifetimePower] and
    [totalOnGridEnergy] are the left-to-right binary64 sums of what the
    [month_power], [total_power] and [day_on_grid_energy] readings count
    for. *)
Theorem calculateTotals_other_sums (nts : float -> jsstring)
  (pfs : jsstring -> float) (s : state) (items : list value) :
  realTimeData s = VArr items ->
  forallb (addable nts pfs) items = true ->
  exists t month_power total_power day_on_grid_energy,
    calculateTotals nts pfs s = Done t
    /\ amounts nts pfs (js "month_power") items = Done month_power
    /\ amounts nts pfs (js "total_power") items = Done total_power
    /\ amounts nts pfs (js "day_on_grid_energy") items = Done day_on_grid_energy
    /\ totalMonthPower t = sum month_power
    /\ totalLifetimePower t = sum total_power
    /\ totalOnGridEnergy t = sum day_on_grid_energy.
Proof.
  intros Hdata Hall. unfold calculateTotals. rewrite Hdata.
  destruct (reduce_totals nts pfs items Hall no_totals)
    as (t & _ & _ & l3 & l4 & l5 & Hrun & _ & _ & E3 & E4 & E5 & _ & _ & T3 & T4 & T5).
  exists t, l3, l4, l5. repeat split; assumption.
Qed.

Lemma calculateTotals_other_sums_witness :
  exists t month_power total_power day_on_grid_energy,
    calculateTotals Scenario.unformatted Scenario.unread
      (setRealTimeData (VArr Fixtures.full_plants) (initial 0)) = Done t
    /\ amounts Scenario.unformatted Scenario.unread (js "month_power")
         Fixtures.full_plants = Done month_power
    /\ amounts Scenario.unformatted Scenario.unread (js "total_power")
         Fixtures.full_plants = Done total_power
    /\ amounts Scenario.unformatted Scenario.unread (js "day_on_grid_energy")
         Fixtures.full_plants = Done day_on_grid_energy
    /\ totalMonthPower t = sum month_power
    /\ totalLifetimePower t = sum total_power
    /\ totalOnGridEnergy t = sum day_on_grid_energy.
Proof.
  apply (@calculateTotals_other_sums Scenario.unformatted Scenario.unread
           (setRealTimeData (VArr Fixtures.full_plants) (initial 0))
           Fixtures.full_plants eq_refl eq_refl).
Defined.

Example full_plants_totals :
  calculateTotals Scenario.unformatted Scenario.unread
    (setRealTimeData (VArr Fixtures.full_plants) (initial 0))
  = Done {| totalDayPower := 19.75; totalRevenue := 3.25;
            totalMonthPower := 430.75; totalLifetimePower := 21504;
            totalOnGridEnergy := 10.25 |}.
Proof. vm_compute. reflexivity. Qed.

(** ** Health and selection *)

Lemma is_string_eq (st : option value) (l : jsstring) :
  is_string st l = true <-> st = Some (VStr l).
Proof.
  destruct st as [[| b | x | k | its | fs]|]; simpl;
    try (split; [discriminate | intro H; discriminate H]).
  rewrite str_eqb_eq. split; [now intros -> | now intros [= ->]].
Qed.

Lemma is_string_neq (st : option value) (l : jsstring) :
  is_string st l = false <-> st <> Some (VStr l).
Proof.
  rewrite <- is_string_eq. now destruct (is_string st l).
Qed.

(** X11.  [getHealthStatus] shows something else than Unknown exactly for
    the strings "1", "2" and "3"; a number such as 3, or a missing state,
    gives Unknown. *)
Theorem health_known_iff (st : option value) :
  (text (getHealthStatus st) = js "Disconnected" <-> st = Some (VStr (js "1")))
  /\ (text (getHealthStatus st) = js "Faulty" <-> st = Some (VStr (js "2")))
  /\ (text (getHealthStatus st) = js "Healthy" <-> st = Some (VStr (js "3")))
  /\ (text (getHealthStatus st) = js "Unknown"
      <-> st <> Some (VStr (js "1")) /\ st <> Some (VStr (js "2"))
          /\ st <> Some (VStr (js "3"))).
Proof.
  unfold getHealthStatus.
  destruct (is_string st (js "1")) eqn:H1.
  { apply is_string_eq in H1. subst st. cbn [text].
    repeat split; try reflexivity; try discriminate;
      intro H; try discriminate H; destruct H as [A _]; now contradiction A. }
  destruct (is_string st (js "2")) eqn:H2.
  { apply is_string_eq in H2. subst st. cbn [text].
    repeat split; try reflexivity; try discriminate;
      intro H; try discriminate H; destruct H as [_ [A _]]; now contradiction A. }
  destruct (is_string st (js "3")) eqn:H3.
  { apply is_string_eq in H3. subst st. cbn [text].
    repeat split; try reflexivity; try discriminate;
      intro H; try discriminate H; destruct H as [_ [_ A]]; now contradiction A. }
  apply is_string_neq in H1, H2, H3. cbn [text].
  repeat split; try assumption; try (intro H; discriminate H);
    intro H; contradiction.
Qed.

Example health_of_number : text (getHealthStatus (Some (VNum 3))) = js "Unknown".
Proof. reflexivity. Qed.

Lemma plain_same_value (e p : option value) :
  plain p = true -> same_value_zero e p = strict_equal e p.
Proof.
  destruct e as [[| b | x | k | its | fs]|], p as [[| b' | x' | k' | its' | fs']|];
    try reflexivity; simpl.
  intro H. apply negb_true_iff in H. rewrite H. now rewrite andb_false_r, orb_false_r.
Qed.

Lemma plain_strict_refl (p : option value) : plain p = true -> strict_equal p p = true.
Proof.
  destruct p as [[| b | x | k | its | fs]|]; simpl; try reflexivity; try discriminate.
  - intros _. now destruct b.
  - unfold is_nan. intro H. apply negb_true_iff in H. now apply negb_false_iff in H.
  - intros _. apply str_eqb_refl.
Qed.

Lemma includes_false_keeps (p : option value) (prev : list (option value)) :
  plain p = true -> array_includes prev p = false ->
  filter (fun code => negb (strict_equal code p)) prev = prev.
Proof.
  intros Hp. unfold array_includes. induction prev as [|e prev IH]; [reflexivity|].
  cbn [existsb filter]. intro H. apply orb_false_iff in H. destruct H as [He Hrest].
  rewrite (plain_same_value e p Hp) in He. rewrite He. cbn [negb].
  now rewrite IH.
Qed.

Lemma filtered_excludes (p : option value) (prev : list (option value)) :
  plain p = true ->
  array_includes (filter (fun code => negb (strict_equal code p)) prev) p = false.
Proof.
  intros Hp. unfold array_includes. induction prev as [|e prev IH]; [reflexivity|].
  cbn [filter]. destruct (strict_equal e p) eqn:He; cbn [negb]; [exact IH|].
  cbn [existsb]. now rewrite (plain_same_value e p Hp), He, IH.
Qed.

Lemma appended_includes (p : option value) (prev : list (option value)) :
  plain p = true -> array_includes (prev ++ [p]) p = true.
Proof.
  intro Hp. unfold array_includes. rewrite existsb_app. cbn [existsb].
  rewrite (plain_same_value p p Hp), (plain_strict_refl p Hp).
  now rewrite orb_true_r.
Qed.

(** X12.  Clicking a plant flips its selection: after [handlePlantSelection]
    the code is selected exactly when it was not before (for a code that
    compares by content). *)
Theorem selection_flips (p : option value) (s : state) :
  plain p = true ->
  array_includes (selectedPlants (handlePlantSelection p s)) p
  = negb (array_includes (selectedPlants s) p).
Proof.
  intro Hp. cbn [handlePlantSelection setSelectedPlants selectedPlants].
  unfold toggled. destruct (array_includes (selectedPlants s) p) eqn:Hin; cbn [negb].
  - now apply filtered_excludes.
  - now apply appended_includes.
Qed.

Lemma selection_flips_witness :
  array_includes
    (selectedPlants (handlePlantSelection (Some (VStr (js "NE=1001"))) watching))
    (Some (VStr (js "NE=1001")))
  = negb (array_includes (selectedPlants watching) (Some (VStr (js "NE=1001")))).
Proof.
  apply selection_flips. reflexivity.
Defined.

(** X13.  Clicking an unselected plant twice restores the selection as it
    was; clicking a selected plant twice leaves it selected but moves it
    behind the others. *)
Theorem selection_twice (p : option value) (s : state) :
  plain p = true ->
  selectedPlants (handlePlantSelection p (handlePlantSelection p s))
  = if array_includes (selectedPlants s) p
    then filter (fun code => negb (strict_equal code p)) (selectedPlants s) ++ [p]
    else selectedPlants s.
Proof.
  intro Hp. cbn [handlePlantSelection setSelectedPlants selectedPlants].
  unfold toggled at 2.
  destruct (array_includes (selectedPlants s) p) eqn:Hin.
  - unfold toggled. now rewrite (filtered_excludes p (selectedPlants s) Hp).
  - unfold toggled. rewrite (appended_includes p (selectedPlants s) Hp).
    rewrite filter_app. cbn [filter]. rewrite (plain_strict_refl p Hp). cbn [negb].
    rewrite app_nil_r. now apply includes_false_keeps.
Qed.

Lemma selection_twice_witness :
  selectedPlants (handlePlantSelection (Some (VStr (js "NE=1001")))
                    (handlePlantSelection (Some (VStr (js "NE=1001"))) watching))
  = [Some (VStr (js "NE=1002")); Some (VStr (js "NE=1001"))].
Proof.
  exact (@selection_twice (Some (VStr (js "NE=1001"))) watching eq_refl).
Defined.

(** X14.  Clicking a plant leaves the other plants as they are: the
    selection without the clicked code is the same list before and after,
    order included. *)
Theorem selection_keeps_others (p : option value) (s : state) :
  plain p = true ->
  filter (fun code => negb (strict_equal code p))
         (selectedPlants (handlePlantSelection p s))
  = filter (fun code => negb (strict_equal code p)) (selectedPlants s).
Proof.
  intro Hp. cbn [handlePlantSelection setSelectedPlants selectedPlants].
  unfold toggled. destruct (array_includes (selectedPlants s) p).
  - induction (selectedPlants s) as [|e l IH]; [reflexivity|].
    cbn [filter]. destruct (strict_equal e p) eqn:He; cbn [negb]; [exact IH|].
    cbn [filter]. rewrite He. cbn [negb]. now rewrite IH.
  - rewrite filter_app. cbn [filter]. rewrite (plain_strict_refl p Hp). cbn [negb].
    now rewrite app_nil_r.
Qed.

Lemma selection_keeps_others_witness :
  filter (fun code => negb (strict_equal code (Some (VStr (js "NE=1001")))))
         (selectedPlants (handlePlantSelection (Some (VStr (js "NE=1001"))) watching))
  = [Some (VStr (js "NE=1002"))].
Proof.
  exact (@selection_keeps_others (Some (VStr (js "NE=1001"))) watching eq_refl).
Defined.

(** ** Polling *)

Ltac open_handler :=
  unfold then_, update, finally, attempt, post, json_of, of_outcome, unit_, raise;
  cbn [fst snd].

Section Polling.

Variable NODE_ENV : option jsstring.
Variable http : http_request -> http_result.
Variable now : N.
Variable nts : float -> jsstring.

(** A poll that passes its guard, opened up to the relay's answer. *)
Lemma poll_started (s : state) :
  truthy (xsrfToken s) = true ->
  selectedPlants s <> [] ->
  run (fetchRealTimeData NODE_ENV http now nts s) s
  = match poll_call NODE_ENV nts s with
    | Throw _ =>
        (setLoading false
           (setLoginError (VStr (js "Network error. Please check your connection."))
              (setLoading true s)),
         [])
    | Done call =>
        match http call with
        | Answered {| answer := Server.Json data; answer_header := _ |} =>
            match data with
            | VNull =>
                (setLoading false
                   (setLoginError
                      (VStr (js "Network error. Please check your connection."))
                      (setLoading true s)),
                 [call])
            | _ =>
                if is_true (prop data (js "success")) then
                  (setLoading false
                     (setLoginError (VStr [])
                        (setLastUpdate now
                           (setRealTimeData (or_nothing (prop data (js "data")))
                              (setLoading true s)))),
                   [call])
                else
                  (setLoading false
                     (setLoginError
                        (VStr (if Server.is_number (prop data (js "failCode")) 407 then
                                 js "API rate limit exceeded. Please wait before refreshing."
                               else if Server.is_number (prop data (js "failCode")) 20010
                               then
                                 js "Invalid station codes. Please check your plant selection."
                               else js "Failed to fetch data. Please try again later."))
                        (setLoading true s)),
                   [call])
            end
        | _ =>
            (setLoading false
               (setLoginError (VStr (js "Network error. Please check your connection."))
                  (setLoading true s)),
             [call])
        end
    end.
Proof.
  intros Htok Hsel. unfold run, fetchRealTimeData, poll_call. rewrite Htok.
  destruct (selectedPlants s) as [|c l] eqn:Hl; [contradiction|].
  cbn [negb orb List.length Nat.eqb]. rewrite <- Hl.
  open_handler.
  destruct (join_codes nts (selectedPlants s)) as [joined|e]; [|reflexivity].
  cbn [and_then].
  match goal with
  | |- context [http ?rq] =>
      destruct (http rq) as [m|[[m|data] hdr]]; try reflexivity
  end.
  cbn [answer].
  destruct data as [| b | x | k | its | fs]; try reflexivity;
    cbn [get]; destruct (is_true _); try reflexivity;
    destruct (Server.is_number _ 407); try reflexivity;
    destruct (Server.is_number _ 20010); reflexivity.
Qed.

Lemma poll_skipped (s : state) :
  truthy (xsrfToken s) = false \/ selectedPlants s = [] ->
  run (fetchRealTimeData NODE_ENV http now nts s) s = (s, []).
Proof.
  intros [H|H]; unfold run, fetchRealTimeData; rewrite H; [reflexivity|].
  now rewrite orb_true_r.
Qed.

End Polling.

(** Every way a poll can end, as a tactic: the guard, then the answer. *)
Ltac poll_cases NODE_ENV http now nts s :=
  let Htok := fresh "Htok" in
  let Hsel := fresh "Hsel" in
  assert (Hsel : {selectedPlants s = []} + {selectedPlants s <> []})
    by (destruct (selectedPlants s); [left; reflexivity | right; discriminate]);
  destruct (truthy (xsrfToken s)) eqn:Htok;
  [ destruct Hsel as [Hsel|Hsel];
    [ rewrite (@poll_skipped NODE_ENV http now nts s (or_intror Hsel))
    | rewrite (@poll_started NODE_ENV http now nts s Htok Hsel) ]
  | rewrite (@poll_skipped NODE_ENV http now nts s (or_introl Htok)) ].

(** X15.  A poll never logs the user out: whatever the relay answers,
    [fetchRealTimeData] leaves the authentication flag, the token, the plant
    list, the selection, the credentials and the password switch as they
    were. *)
Theorem poll_keeps_session (NODE_ENV : option jsstring)
  (http : http_request -> http_result) (now : N) (nts : float -> jsstring)
  (s : state) :
  isAuthenticated (fst (run (fetchRealTimeData NODE_ENV http now nts s) s))
  = isAuthenticated s
  /\ xsrfToken (fst (run (fetchRealTimeData NODE_ENV http now nts s) s)) = xsrfToken s
  /\ availablePlants (fst (run (fetchRealTimeData NODE_ENV http now nts s) s))
     = availablePlants s
  /\ selectedPlants (fst (run (fetchRealTimeData NODE_ENV http now nts s) s))
     = selectedPlants s
  /\ credentials (fst (run (fetchRealTimeData NODE_ENV http now nts s) s))
     = credentials s
  /\ showPassword (fst (run (fetchRealTimeData NODE_ENV http now nts s) s))
     = showPassword s.
Proof.
  poll_cases NODE_ENV http now nts s; try (repeat split; fail).
  destruct (poll_call NODE_ENV nts s) as [call|e]; [|repeat split].
  destruct (http call) as [m|[[m|data] hdr]];
    try (repeat split; fail).
  destruct data; try (repeat split; fail);
    destruct (is_true _); repeat split.
Qed.

(** X16.  A poll calls the relay only when there is a truthy token and a
    non-empty selection, and then at most once, with the token and the
    selected codes joined by commas: when joining the codes throws (a code
    that is an object with an own [toString]) no call is made.  A poll that
    passed the guard ends with [loading] false, whatever happened. *)
Theorem poll_calls_once (NODE_ENV : option jsstring)
  (http : http_request -> http_result) (now : N) (nts : float -> jsstring)
  (s : state) :
  snd (run (fetchRealTimeData NODE_ENV http now nts s) s)
  = (if truthy (xsrfToken s) && negb (Nat.eqb (List.length (selectedPlants s)) 0)
     then match join_codes nts (selectedPlants s) with
          | Done stationCodes =>
              [{| target := API_BASE_URL NODE_ENV ++ js "/api/huawei/getStationRealKpi";
                  content := VObj [(js "xsrfToken", xsrfToken s);
                                   (js "stationCodes", VStr stationCodes)] |}]
          | Throw _ => []
          end
     else [])
  /\ (truthy (xsrfToken s) = true -> selectedPlants s <> [] ->
      loading (fst (run (fetchRealTimeData NODE_ENV http now nts s) s)) = false).
Proof.
  poll_cases NODE_ENV http now nts s.
  - rewrite Hsel. cbn [andb negb List.length Nat.eqb fst snd].
    split; [reflexivity | intros _ H; now contradiction H].
  - assert (Hlen : Nat.eqb (List.length (selectedPlants s)) 0 = false)
      by (destruct (selectedPlants s); [now contradiction Hsel | reflexivity]).
    rewrite Hlen. cbn [andb negb]. unfold poll_call.
    destruct (join_codes nts (selectedPlants s)) as [joined|e];
      [|split; reflexivity].
    cbn [and_then].
    match goal with
    | |- context [http ?rq] =>
        destruct (http rq) as [m|[[m|data] hdr]]; try (split; reflexivity)
    end.
    destruct data; try (split; reflexivity);
      destruct (is_true _); split; reflexivity.
  - cbn [andb fst snd]. split; [reflexivity | intro H; discriminate H].
Qed.

(** X17.  When the relay answers a poll with [success: true], the telemetry
    becomes [data.data] (the empty list when that is missing or falsy), the
    update time becomes the current time, the error message is cleared and
    [loading] ends false. *)
Theorem poll_success (NODE_ENV : option jsstring)
  (http : http_request -> http_result) (now : N) (nts : float -> jsstring)
  (s : state) (call : http_request) (r : http_response) (data : value) :
  truthy (xsrfToken s) = true ->
  selectedPlants s <> [] ->
  poll_call NODE_ENV nts s = Done call ->
  http call = Answered r ->
  answer r = Server.Json data ->
  prop data (js "success") = Some (VBool true) ->
  fst (run (fetchRealTimeData NODE_ENV http now nts s) s)
  = {| isAuthenticated := isAuthenticated s; xsrfToken := xsrfToken s;
       availablePlants := availablePlants s; selectedPlants := selectedPlants s;
       realTimeData := match prop data (js "data") with
                       | Some v => if truthy v then v else VArr []
                       | None => VArr []
                       end;
       loading := false; lastUpdate := now; loginError := VStr [];
       showPassword := showPassword s; credentials := credentials s |}.
Proof.
  intros Htok Hsel Hcall Hh Ha Hs.
  rewrite (@poll_started NODE_ENV http now nts s Htok Hsel), Hcall, Hh.
  destruct r as [a hdr]. cbn [answer] in Ha. subst a.
  destruct data; try discriminate Hs; rewrite Hs; reflexivity.
Qed.

Lemma poll_success_witness :
  fst (run (fetchRealTimeData None (fun _ => relayed two_stations) 1700000600000%N
              Scenario.unformatted watching) watching)
  = {| isAuthenticated := true; xsrfToken := xsrfToken watching;
       availablePlants := availablePlants watching;
       selectedPlants := selectedPlants watching;
       realTimeData := match prop two_stations (js "data") with
                       | Some v => if truthy v then v else VArr []
                       | None => VArr []
                       end;
       loading := false; lastUpdate := 1700000600000%N; loginError := VStr [];
       showPassword := false; credentials := credentials watching |}.
Proof.
  eapply (@poll_success None (fun _ => relayed two_stations) 1700000600000%N
            Scenario.unformatted watching _
            {| answer := Server.Json two_stations; answer_header := fun _ => None |}
            two_stations);
    [reflexivity | discriminate | reflexivity | reflexivity | reflexivity
     | reflexivity].
Defined.

(** X18.  When the relay answers a poll with JSON whose [success] is not
    [true], the telemetry and the update time stay as they were and
    [loading] ends false.  The error message is chosen by [failCode]: 407,
    20010, or anything else; for the JSON answer [null], whose [success]
    cannot be read, it is the network-error text. *)
Theorem poll_failure (NODE_ENV : option jsstring)
  (http : http_request -> http_result) (now : N) (nts : float -> jsstring)
  (s : state) (call : http_request) (r : http_response) (data : value) :
  truthy (xsrfToken s) = true ->
  selectedPlants s <> [] ->
  poll_call NODE_ENV nts s = Done call ->
  http call = Answered r ->
  answer r = Server.Json data ->
  prop data (js "success") <> Some (VBool true) ->
  fst (run (fetchRealTimeData NODE_ENV http now nts s) s)
  = {| isAuthenticated := isAuthenticated s; xsrfToken := xsrfToken s;
       availablePlants := availablePlants s; selectedPlants := selectedPlants s;
       realTimeData := realTimeData s;
       loading := false; lastUpdate := lastUpdate s;
       loginError :=
         VStr (match data with
               | VNull => js "Network error. Please check your connection."
               | _ =>
                   match prop data (js "failCode") with
                   | Some (VNum code) =>
                       if PrimFloat.eqb code 407 then
                         js "API rate limit exceeded. Please wait before refreshing."
                       else if PrimFloat.eqb code 20010 then
                         js "Invalid station codes. Please check your plant selection."
                       else js "Failed to fetch data. Please try again later."
                   | _ => js "Failed to fetch data. Please try again later."
                   end
               end);
       showPassword := showPassword s; credentials := credentials s |}.
Proof.
  intros Htok Hsel Hcall Hh Ha Hs.
  rewrite (@poll_started NODE_ENV http now nts s Htok Hsel), Hcall, Hh.
  destruct r as [a hdr]. cbn [answer] in Ha. subst a.
  assert (Hf : is_true (prop data (js "success")) = false).
  { destruct (prop data (js "success")) as [[| [|] | x | k | its | fs]|];
      try reflexivity. now contradiction Hs. }
  assert (Hm : forall A (x y z : A),
             (if Server.is_number (prop data (js "failCode")) 407 then x
              else if Server.is_number (prop data (js "failCode")) 20010 then y
                   else z)
             = match prop data (js "failCode") with
               | Some (VNum code) =>
                   if PrimFloat.eqb code 407 then x
                   else if PrimFloat.eqb code 20010 then y else z
               | _ => z
               end).
  { intros A x y z.
    destruct (prop data (js "failCode")) as [[| b | c | k | its | fs]|]; reflexivity. }
  destruct data; try reflexivity; rewrite Hf, Hm; reflexivity.
Qed.

Lemma poll_failure_witness :
  loginError
    (fst (run (fetchRealTimeData None (fun _ => relayed Scenario.rate_limited)
                 1700000600000%N Scenario.unformatted watching) watching))
  = VStr (js "API rate limit exceeded. Please wait before refreshing.")
  /\ realTimeData
       (fst (run (fetchRealTimeData None (fun _ => relayed Scenario.rate_limited)
                    1700000600000%N Scenario.unformatted watching) watching))
     = realTimeData watching.
Proof.
  erewrite (@poll_failure None (fun _ => relayed Scenario.rate_limited) 1700000600000%N
              Scenario.unformatted watching _
              {| answer := Server.Json Scenario.rate_limited;
                 answer_header := fun _ => None |}
              Scenario.rate_limited);
    [split; reflexivity | reflexivity | discriminate | reflexivity | reflexivity
     | reflexivity | discriminate].
Defined.

Example poll_answered_null :
  loginError
    (fst (run (fetchRealTimeData None (fun _ => relayed VNull) 1700000600000%N
                 Scenario.unformatted watching) watching))
  = VStr (js "Network error. Please check your connection.").
Proof. reflexivity. Qed.

(** X19.  The telemetry and the update time change only on an answer with
    [success: true]: if either differs after a poll, the poll made its call
    and the relay answered it with JSON whose [success] is [true]. *)
Theorem telemetry_changes_only_on_success (NODE_ENV : option jsstring)
  (http : http_request -> http_result) (now : N) (nts : float -> jsstring)
  (s : state) :
  realTimeData (fst (run (fetchRealTimeData NODE_ENV http now nts s) s))
  <> realTimeData s
  \/ lastUpdate (fst (run (fetchRealTimeData NODE_ENV http now nts s) s))
     <> lastUpdate s ->
  exists call r data,
    poll_call NODE_ENV nts s = Done call
    /\ http call = Answered r
    /\ answer r = Server.Json data
    /\ prop data (js "success") = Some (VBool true).
Proof.
  poll_cases NODE_ENV http now nts s;
    try (cbn [fst realTimeData lastUpdate]; intros [H|H]; now contradiction H).
  destruct (poll_call NODE_ENV nts s) as [call|e];
    [|cbn; intros [H|H]; now contradiction H].
  destruct (http call) as [m|[[m|data] hdr]] eqn:Hh;
    try (cbn; intros [H|H]; now contradiction H).
  destruct data as [| b | x | k | its | fs];
    try (cbn; intros [H|H]; now contradiction H);
    (destruct (is_true _) eqn:Ht;
     [ intros _; exists call; eexists; eexists; split; [reflexivity|];
       split; [exact Hh|]; split; [reflexivity|];
       match type of Ht with
       | is_true ?o = true =>
           destruct o as [[| [|] | ? | ? | ? | ?]|]; try discriminate Ht; reflexivity
       end
     | cbn; intros [H|H]; now contradiction H ]).
Qed.

(** ** The station list and the login *)

Section SigningIn.

Variable NODE_ENV : option jsstring.
Variable http : http_request -> http_result.
Variable nts : float -> jsstring.
Variable stn : jsstring -> float.
Variable tf : float -> jsstring.

(** [fetchStationList] never throws, makes one call, and leaves the cells
    [listed]. *)
Lemma fetchStationList_run (token : value) (c : cells) :
  fetchStationList NODE_ENV http nts stn tf token c
  = (Done tt,
     (listed NODE_ENV http nts stn tf token (fst c),
      snd c ++ [stations_call NODE_ENV token])).
Proof.
  unfold fetchStationList, listed. open_handler.
  change {| target := API_BASE_URL NODE_ENV ++ js "/api/huawei/getStationList";
            content := VObj [(js "xsrfToken", token)] |}
    with (stations_call NODE_ENV token).
  destruct (http (stations_call NODE_ENV token)) as [m|[[m|data] hdr]]; try reflexivity.
  cbn [answer].
  destruct data as [| b | x | k | its | fs]; try reflexivity;
    cbn [get];
    destruct (is_true _ && truthy_opt _); try reflexivity;
    destruct (map_stations nts stn tf _); reflexivity.
Qed.

(** The cells [handleLogin] starts from: loading, no error message. *)
Lemma login_run (s : state) :
  run (handleLogin NODE_ENV http nts stn tf s) s
  = match http (login_call NODE_ENV s) with
    | Answered {| answer := Server.Json data; answer_header := header |} =>
        match data with
        | VNull =>
            (setLoading false
               (setLoginError
                  (VStr (if env_is NODE_ENV (js "development") then
                           js "Network error. Please check if the proxy server is running on port 3001."
                         else
                           js "Network error. Please check your connection and try again."))
                  (setLoginError (VStr []) (setLoading true s))),
             [login_call NODE_ENV s])
        | _ =>
            if is_true (prop data (js "success")) then
              match token_of (prop data (js "xsrfToken")) (header (js "xsrf-token")) with
              | Some token =>
                  (setLoading false
                     (setIsAuthenticated true
                        (listed NODE_ENV http nts stn tf token
                           (setXsrfToken token
                              (setLoginError (VStr []) (setLoading true s))))),
                   [login_call NODE_ENV s; stations_call NODE_ENV token])
              | None =>
                  (setLoading false
                     (setLoginError
                        (VStr (js "XSRF token not received. Please check API response."))
                        (setLoginError (VStr []) (setLoading true s))),
                   [login_call NODE_ENV s])
              end
            else
              (setLoading false
                 (setLoginError
                    (or_text (prop data (js "message"))
                             (js "Login failed. Please check your credentials."))
                    (setLoginError (VStr []) (setLoading true s))),
               [login_call NODE_ENV s])
        end
    | _ =>
        (setLoading false
           (setLoginError
              (VStr (if env_is NODE_ENV (js "development") then
                       js "Network error. Please check if the proxy server is running on port 3001."
                     else
                       js "Network error. Please check your connection and try again."))
              (setLoginError (VStr []) (setLoading true s))),
         [login_call NODE_ENV s])
    end.
Proof.
  unfold run, handleLogin. open_handler.
  change {| target := API_BASE_URL NODE_ENV ++ js "/api/huawei/login";
            content := VObj [(js "userName", VStr (userName (credentials s)));
                             (js "systemCode", VStr (systemCode (credentials s)))] |}
    with (login_call NODE_ENV s).
  destruct (http (login_call NODE_ENV s)) as [m|[[m|data] hdr]];
    try (destruct (env_is NODE_ENV (js "development")); reflexivity).
  cbn [answer answer_header].
  destruct data as [| b | x | k | its | fs];
    try (destruct (env_is NODE_ENV (js "development")); reflexivity);
    cbn [get]; destruct (is_true _); try reflexivity;
    destruct (token_of _ _) as [token|]; try reflexivity;
    rewrite fetchStationList_run; reflexivity.
Qed.

End SigningIn.

Lemma telemetry_changes_only_on_success_witness :
  exists call r data,
    poll_call None Scenario.unformatted watching = Done call
    /\ (fun _ : http_request => relayed two_stations) call = Answered r
    /\ answer r = Server.Json data
    /\ prop data (js "success") = Some (VBool true).
Proof.
  apply (@telemetry_changes_only_on_success None (fun _ => relayed two_stations)
           1700000600000%N Scenario.unformatted watching).
  right. cbn. discriminate.
Defined.

(** A station that can be listed: it is not [null] and its capacity
    converts to a number. *)
Lemma plants_of_done (nts : float -> jsstring) (stn : jsstring -> float)
  (tf : float -> jsstring) (stations : list value) :
  Forall (fun st => st <> VNull
                    /\ exists megawatts,
                         ToNumber nts stn (prop st (js "capacity")) = Done megawatts)
         stations ->
  exists plants,
    plants_of nts stn tf stations = Done plants
    /\ map plant_code plants = map (fun st => prop st (js "stationCode")) stations
    /\ map plant_name plants = map (fun st => prop st (js "stationName")) stations.
Proof.
  induction 1 as [|st stations [Hst [mw Hmw]] _ IH].
  - exists []. repeat split.
  - destruct IH as (plants & Hrun & Hc & Hn).
    cbn [plants_of].
    assert (Hone : plant_of nts stn tf st
                   = Done {| plant_code := prop st (js "stationCode");
                             plant_name := prop st (js "stationName");
                             capacity := tf (mw * 1000)%float ++ js " kW" |}).
    { destruct st as [| b | x | k | its | fs]; [now contradiction Hst | | | | |];
        cbn [plant_of]; rewrite Hmw; reflexivity. }
    rewrite Hone, Hrun. eexists. split; [reflexivity|].
    cbn [map plant_code plant_name]. now rewrite Hc, Hn.
Qed.

Lemma plants_of_null (nts : float -> jsstring) (stn : jsstring -> float)
  (tf : float -> jsstring) (stations : list value) :
  In VNull stations ->
  exists e, plants_of nts stn tf stations = Throw e.
Proof.
  induction stations as [|st stations IH]; intro Hin; [contradiction|].
  cbn [plants_of].
  destruct st as [| b | x | k | its | fs]; [eexists; reflexivity | | | | |];
    (destruct Hin as [E|Hin]; [discriminate E|]);
    destruct (IH Hin) as [e He]; rewrite He;
    destruct (plant_of nts stn tf _); eexists; reflexivity.
Qed.

(** X20.  After a logout a poll does nothing: it makes no call and leaves
    the cells as [handleLogout] set them. *)
Theorem poll_after_logout (NODE_ENV : option jsstring)
  (http : http_request -> http_result) (now : N) (nts : float -> jsstring)
  (s : state) :
  run (fetchRealTimeData NODE_ENV http now nts (handleLogout s)) (handleLogout s)
  = (handleLogout s, []).
Proof.
  apply poll_skipped. left. reflexivity.
Qed.

(** X21.  A poll stores [data.data] unchecked: when the relay answers
    [success: true] with a [data] that is truthy but not an array,
    [calculateTotals] throws on the state the poll leaves ([reduce] is not a
    function). *)
Theorem poll_stores_unchecked_data (NODE_ENV : option jsstring)
  (http : http_request -> http_result) (now : N) (nts : float -> jsstring)
  (pfs : jsstring -> float) (s : state) (call : http_request) (r : http_response)
  (data v : value) :
  truthy (xsrfToken s) = true ->
  selectedPlants s <> [] ->
  poll_call NODE_ENV nts s = Done call ->
  http call = Answered r ->
  answer r = Server.Json data ->
  prop data (js "success") = Some (VBool true) ->
  prop data (js "data") = Some v ->
  truthy v = true ->
  (forall items, v <> VArr items) ->
  calculateTotals nts pfs (fst (run (fetchRealTimeData NODE_ENV http now nts s) s))
  = Throw (NotCallable (js "reduce")).
Proof.
  intros Htok Hsel Hcall Hh Ha Hs Hd Hv Harr.
  rewrite (@poll_started NODE_ENV http now nts s Htok Hsel), Hcall, Hh.
  destruct r as [a hdr]. cbn [answer] in Ha. subst a.
  destruct data; try discriminate Hs; rewrite Hs, Hd;
    cbn [is_true fst or_nothing]; rewrite Hv;
    (destruct v as [| b | x | k | its | fs];
     [discriminate Hv | reflexivity | reflexivity | reflexivity
      | now contradiction (Harr its) | reflexivity]).
Qed.

Lemma poll_stores_unchecked_data_witness :
  calculateTotals Scenario.unformatted Scenario.unread
    (fst (run (fetchRealTimeData None
                 (fun _ => relayed (VObj [(js "success", VBool true);
                                          (js "data", VObj [(js "total", VNum 2)])]))
                 1700000600000%N Scenario.unformatted watching) watching))
  = Throw (NotCallable (js "reduce")).
Proof.
  eapply (@poll_stores_unchecked_data None
           (fun _ => relayed (VObj [(js "success", VBool true);
                                    (js "data", VObj [(js "total", VNum 2)])]))
           1700000600000%N Scenario.unformatted Scenario.unread watching _
           {| answer := Server.Json (VObj [(js "success", VBool true);
                                           (js "data", VObj [(js "total", VNum 2)])]);
              answer_header := fun _ => None |}
           (VObj [(js "success", VBool true); (js "data", VObj [(js "total", VNum 2)])])
           (VObj [(js "total", VNum 2)]));
    try reflexivity; discriminate.
Defined.

Lemma join_comma_all (f : code_unit -> bool) (parts : list jsstring) :
  forallb f (join_comma parts) = true ->
  forall part, In part parts -> forallb f part = true.
Proof.
  destruct parts as [|p rest]; [intros _ part []|].
  unfold join_comma. rewrite forallb_app, andb_true_iff. intros [Hp Hrest] part [<-|Hin].
  - exact Hp.
  - induction rest as [|q rest IH]; [contradiction|].
    cbn [map List.concat] in Hrest.
    rewrite forallb_app, andb_true_iff in Hrest. destruct Hrest as [Hq Hrest].
    destruct Hin as [<-|Hin].
    + cbn [forallb] in Hq. now apply andb_true_iff in Hq.
    + now apply IH.
Qed.

(** A joined string that is all whitespace has only such parts. *)
Lemma code_texts_member (nts : float -> jsstring) (codes : list (option value))
  (texts : list jsstring) (code : jsstring) :
  code_texts nts codes = Done texts ->
  In (Some (VStr code)) codes -> In code texts.
Proof.
  revert texts. induction codes as [|c codes IH]; intros texts Hrun Hin; [contradiction|].
  cbn [code_texts] in Hrun.
  destruct (match c with
            | Some VNull | None => Done []
            | Some v => ToString nts v
            end) as [text|e] eqn:Hc; [|discriminate Hrun].
  cbn [and_then] in Hrun.
  destruct (code_texts nts codes) as [rest|e]; [|discriminate Hrun].
  cbn [and_then] in Hrun. injection Hrun as <-.
  destruct Hin as [->|Hin].
  - cbn [ToString] in Hc. injection Hc as <-. now left.
  - right. now apply IH.
Qed.

(** X22.  The call a poll makes passes the relay's validation: when the
    token is a non-empty string, the selected codes join to a string and one
    of them is a string with a character that is not whitespace, the relay,
    given the call's body, sends the vendor one request with the token in
    the XSRF-TOKEN header and the joined codes as the only field of the
    body. *)
Theorem poll_passes_relay (fetch : fetch_request -> fetch_result)
  (tem : exn -> jsstring) (NODE_ENV : option jsstring) (nts : float -> jsstring)
  (s : state) (tok code : jsstring) (call : http_request) :
  xsrfToken s = VStr tok ->
  tok <> [] ->
  In (Some (VStr code)) (selectedPlants s) ->
  forallb is_white_space code = false ->
  poll_call NODE_ENV nts s = Done call ->
  exists stationCodes,
    join_codes nts (selectedPlants s) = Done stationCodes
    /\ content call = VObj [(js "xsrfToken", VStr tok);
                            (js "stationCodes", VStr stationCodes)]
    /\ requests (snd (proxy fetch tem (js "getStationRealKpi") (content call)))
       = [proxy_request (js "getStationRealKpi") (VStr tok)
            [(js "stationCodes", VStr stationCodes)]].
Proof.
  intros Htok Hne Hin Hcode Hcall.
  unfold poll_call in Hcall.
  destruct (join_codes nts (selectedPlants s)) as [joined|e] eqn:Hjoin;
    [|discriminate Hcall].
  cbn [and_then] in Hcall. injection Hcall as <-. cbn [content].
  exists joined. split; [reflexivity|]. rewrite Htok. split; [reflexivity|].
  assert (Hv : validated (js "getStationRealKpi")
                 (VObj [(js "xsrfToken", VStr tok); (js "stationCodes", VStr joined)])
               = true).
  { unfold validated. rewrite !object_prop.
    cbn [lookup str_eqb]. simpl.
    destruct tok as [|c t]; [now contradiction Hne|]. cbn [andb].
    apply negb_true_iff.
    destruct (forallb is_white_space joined) eqn:Hj; [|reflexivity].
    unfold join_codes in Hjoin.
    destruct (code_texts nts (selectedPlants s)) as [texts|e] eqn:Ht;
      [|discriminate Hjoin].
    cbn [and_then] in Hjoin. injection Hjoin as <-.
    pose proof (join_comma_all _ _ Hj code (code_texts_member _ _ _ Ht Hin)) as Hall.
    rewrite Hall in Hcode. discriminate. }
  destruct (@proxy_validated_run fetch tem _ _ Hv)
    as (token & fields & Hb & Hl & _ & _ & Hrun).
  rewrite Hrun, try_catch_world, forward_one_request.
  injection Hb as <-. cbn in Hl. injection Hl as <-. reflexivity.
Qed.

Lemma poll_passes_relay_witness :
  exists stationCodes,
    join_codes Scenario.unformatted (selectedPlants watching) = Done stationCodes
    /\ content {| target := js "http://localhost:3001/api/huawei/getStationRealKpi";
                  content := VObj [(js "xsrfToken", VStr (js "x-abc123"));
                                   (js "stationCodes", VStr (js "NE=1001,NE=1002"))] |}
       = VObj [(js "xsrfToken", VStr (js "x-abc123"));
               (js "stationCodes", VStr stationCodes)]
    /\ requests (snd (proxy Scenario.unreachable Scenario.v8_message
                            (js "getStationRealKpi")
                            (content
                               {| target :=
                                    js "http://localhost:3001/api/huawei/getStationRealKpi";
                                  content :=
                                    VObj [(js "xsrfToken", VStr (js "x-abc123"));
                                          (js "stationCodes",
                                           VStr (js "NE=1001,NE=1002"))] |})))
       = [proxy_request (js "getStationRealKpi") (VStr (js "x-abc123"))
            [(js "stationCodes", VStr stationCodes)]].
Proof.
  apply (@poll_passes_relay Scenario.unreachable Scenario.v8_message None
           Scenario.unformatted watching (js "x-abc123") (js "NE=1001"));
    [reflexivity | discriminate | left; reflexivity | reflexivity | reflexivity].
Defined.

(** X23.  When the relay answers the station list call with
    [success: true] and a list of stations none of which is [null] and each
    of which has a capacity that converts to a number (any capacity but an
    object with an own [toString], or an array holding one),
    [fetchStationList] makes one entry per station, in order, with the
    station's [stationCode] and [stationName] (missing ones stay
    [undefined]), and selects every plant. *)
Theorem station_list_selects_all (NODE_ENV : option jsstring)
  (http : http_request -> http_result) (nts : float -> jsstring)
  (stn : jsstring -> float) (tf : float -> jsstring) (token : value) (s : state)
  (r : http_response) (data : value) (stations : list value) :
  http (stations_call NODE_ENV token) = Answered r ->
  answer r = Server.Json data ->
  prop data (js "success") = Some (VBool true) ->
  prop data (js "data") = Some (VArr stations) ->
  Forall (fun st => st <> VNull
                    /\ exists megawatts,
                         ToNumber nts stn (prop st (js "capacity")) = Done megawatts)
         stations ->
  map plant_code
      (availablePlants (fst (run (fetchStationList NODE_ENV http nts stn tf token) s)))
  = map (fun st => prop st (js "stationCode")) stations
  /\ map plant_name
         (availablePlants (fst (run (fetchStationList NODE_ENV http nts stn tf token) s)))
     = map (fun st => prop st (js "stationName")) stations
  /\ selectedPlants (fst (run (fetchStationList NODE_ENV http nts stn tf token) s))
     = map (fun st => prop st (js "stationCode")) stations.
Proof.
  intros Hh Ha Hs Hd Hnull.
  unfold run. rewrite fetchStationList_run. cbn [fst snd].
  unfold listed. rewrite Hh, Ha, Hs, Hd. cbn [is_true truthy_opt truthy andb map_stations].
  destruct (plants_of_done nts stn tf Hnull) as (plants & Hrun & Hc & Hn).
  rewrite Hrun. cbn [availablePlants selectedPlants setSelectedPlants setAvailablePlants].
  now rewrite Hc, Hn.
Qed.

Lemma station_list_selects_all_witness :
  map plant_code
      (availablePlants
         (fst (run (fetchStationList None helpful_relay Scenario.unformatted
                      Scenario.unread Scenario.unformatted (VStr (js "x-abc123")))
                   signing_in)))
  = [Some (VStr (js "NE=1001")); Some (VStr (js "NE=1002"))]
  /\ map plant_name
         (availablePlants
            (fst (run (fetchStationList None helpful_relay Scenario.unformatted
                         Scenario.unread Scenario.unformatted (VStr (js "x-abc123")))
                      signing_in)))
     = [Some (VStr (js "Roof A")); Some (VStr (js "Roof B"))]
  /\ selectedPlants
       (fst (run (fetchStationList None helpful_relay Scenario.unformatted
                    Scenario.unread Scenario.unformatted (VStr (js "x-abc123")))
                 signing_in))
     = [Some (VStr (js "NE=1001")); Some (VStr (js "NE=1002"))].
Proof.
  apply (@station_list_selects_all None helpful_relay Scenario.unformatted
           Scenario.unread Scenario.unformatted (VStr (js "x-abc123")) signing_in
           {| answer := Server.Json two_stations; answer_header := fun _ => None |}
           two_stations
           [VObj [(js "stationCode", VStr (js "NE=1001"));
                  (js "stationName", VStr (js "Roof A"));
                  (js "capacity", VNum 0.5)];
            VObj [(js "stationCode", VStr (js "NE=1002"));
                  (js "stationName", VStr (js "Roof B"))]]);
    try reflexivity.
  repeat constructor; try discriminate; eexists; reflexivity.
Defined.

(** X24.  [fetchStationList] is all or nothing: it makes one call, never
    throws, and either leaves every cell as it was or replaces the plant
    list and the selection together, the selection being the codes of the
    new list.  A [null] among the stations leaves the cells as they were. *)
Theorem station_list_all_or_nothing (NODE_ENV : option jsstring)
  (http : http_request -> http_result) (nts : float -> jsstring)
  (stn : jsstring -> float) (tf : float -> jsstring) (token : value) (s : state) :
  snd (run (fetchStationList NODE_ENV http nts stn tf token) s)
  = [{| target := API_BASE_URL NODE_ENV ++ js "/api/huawei/getStationList";
        content := VObj [(js "xsrfToken", token)] |}]
  /\ (fst (run (fetchStationList NODE_ENV http nts stn tf token) s) = s
      \/ exists plants,
           fst (run (fetchStationList NODE_ENV http nts stn tf token) s)
           = setSelectedPlants (map plant_code plants) (setAvailablePlants plants s))
  /\ (forall r data stations,
        http (stations_call NODE_ENV token) = Answered r ->
        answer r = Server.Json data ->
        prop data (js "data") = Some (VArr stations) ->
        In VNull stations ->
        fst (run (fetchStationList NODE_ENV http nts stn tf token) s) = s).
Proof.
  unfold run. rewrite fetchStationList_run. cbn [fst snd app].
  split; [reflexivity|]. split.
  - unfold listed.
    destruct (http (stations_call NODE_ENV token)) as [m|[[m|data] hdr]]; auto.
    cbn [answer]. destruct (is_true _ && truthy_opt _); auto.
    destruct (map_stations nts stn tf _) as [plants|e]; eauto.
  - intros r data stations Hh Ha Hd Hin. unfold listed. rewrite Hh, Ha, Hd.
    destruct (is_true _ && truthy_opt _); [|reflexivity].
    cbn [map_stations].
    destruct (plants_of_null nts stn tf stations Hin) as [e He]. now rewrite He.
Qed.

(** X25.  [handleLogin] authenticates only with a token: if the user was
    not authenticated before and is after, then the relay answered the login
    call with [success: true] and the state holds a truthy token. *)
Theorem login_authenticates_only_with_token (NODE_ENV : option jsstring)
  (http : http_request -> http_result) (nts : float -> jsstring)
  (stn : jsstring -> float) (tf : float -> jsstring) (s : state) :
  isAuthenticated s = false ->
  isAuthenticated (fst (run (handleLogin NODE_ENV http nts stn tf s) s)) = true ->
  truthy (xsrfToken (fst (run (handleLogin NODE_ENV http nts stn tf s) s))) = true
  /\ exists r data,
       http (login_call NODE_ENV s) = Answered r
       /\ answer r = Server.Json data
       /\ prop data (js "success") = Some (VBool true).
Proof.
  intros Hs. rewrite login_run.
  destruct (http (login_call NODE_ENV s)) as [m|[[m|data] hdr]] eqn:Hh;
    try (cbn; congruence).
  assert (Hlisted : forall token s0,
             xsrfToken (listed NODE_ENV http nts stn tf token s0) = xsrfToken s0).
  { intros token s0. unfold listed.
    destruct (http (stations_call NODE_ENV token)) as [m|[[m|d] h]]; try reflexivity.
    cbn [answer]. destruct (is_true _ && truthy_opt _); try reflexivity.
    now destruct (map_stations nts stn tf _). }
  destruct data as [| b | x | k | its | fs]; try (cbn; congruence);
    (destruct (is_true _) eqn:Ht; [|cbn; congruence]);
    (destruct (token_of _ _) as [token|] eqn:Htoken; [|cbn; congruence]);
    intros _; cbn [fst xsrfToken setLoading setIsAuthenticated];
    rewrite Hlisted; cbn [xsrfToken setXsrfToken];
    (split;
     [ unfold token_of in Htoken;
       match type of Htoken with
       | (if truthy_opt ?f then _ else _) = _ =>
           destruct (truthy_opt f) eqn:Hf;
           [ rewrite Htoken in Hf; exact Hf
           | destruct (hdr (js "xsrf-token")) as [[|c t]|];
             try discriminate Htoken; injection Htoken as <-; reflexivity ]
       end
     | eexists; eexists; split; [reflexivity|]; split; [reflexivity|];
       match type of Ht with
       | is_true ?o = true =>
           destruct o as [[| [|] | ? | ? | ? | ?]|]; try discriminate Ht; reflexivity
       end ]).
Qed.

Lemma login_authenticates_only_with_token_witness :
  truthy (xsrfToken (fst (run (handleLogin None helpful_relay Scenario.unformatted
                                 Scenario.unread Scenario.unformatted signing_in)
                              signing_in))) = true
  /\ exists r data,
       helpful_relay (login_call None signing_in) = Answered r
       /\ answer r = Server.Json data
       /\ prop data (js "success") = Some (VBool true).
Proof.
  apply login_authenticates_only_with_token; reflexivity.
Defined.

(** X26.  [handleLogin] always settles: whatever the relay does, it ends
    with [loading] false and the credentials as typed, and it made the login
    call with exactly those credentials, followed at most by one station
    list call. *)
Theorem login_settles (NODE_ENV : option jsstring)
  (http : http_request -> http_result) (nts : float -> jsstring)
  (stn : jsstring -> float) (tf : float -> jsstring) (s : state) :
  loading (fst (run (handleLogin NODE_ENV http nts stn tf s) s)) = false
  /\ credentials (fst (run (handleLogin NODE_ENV http nts stn tf s) s)) = credentials s
  /\ exists rest,
       snd (run (handleLogin NODE_ENV http nts stn tf s) s)
       = {| target := API_BASE_URL NODE_ENV ++ js "/api/huawei/login";
            content := VObj [(js "userName", VStr (userName (credentials s)));
                             (js "systemCode", VStr (systemCode (credentials s)))] |}
         :: rest
       /\ (rest = []
           \/ exists token,
                rest = [{| target := API_BASE_URL NODE_ENV
                                     ++ js "/api/huawei/getStationList";
                           content := VObj [(js "xsrfToken", token)] |}]).
Proof.
  rewrite login_run.
  assert (Hlisted : forall token s0,
             credentials (listed NODE_ENV http nts stn tf token s0) = credentials s0).
  { intros token s0. unfold listed.
    destruct (http (stations_call NODE_ENV token)) as [m|[[m|d] h]]; try reflexivity.
    cbn [answer]. destruct (is_true _ && truthy_opt _); try reflexivity.
    now destruct (map_stations nts stn tf _). }
  destruct (http (login_call NODE_ENV s)) as [m|[[m|data] hdr]];
    try (repeat split; eexists; split; [reflexivity | left; reflexivity]).
  destruct data as [| b | x | k | its | fs];
    try (repeat split; eexists; split; [reflexivity | left; reflexivity]);
    (destruct (is_true _);
     [|repeat split; eexists; split; [reflexivity | left; reflexivity]]);
    (destruct (token_of _ _) as [token|];
     [|repeat split; eexists; split; [reflexivity | left; reflexivity]]);
    (split; [reflexivity|]; split;
     [ cbn [fst credentials setLoading setIsAuthenticated]; now rewrite Hlisted
     | eexists; split; [reflexivity | right; eexists; reflexivity] ]).
Qed.



(** X28.  A login form with an empty user name or an empty system code is
    turned down by the relay itself: given the body of the login call, the
    relay answers 400 and does not contact the vendor. *)
Theorem empty_credentials_rejected_by_relay (fetch : fetch_request -> fetch_result)
  (tem : exn -> jsstring) (NODE_ENV : option jsstring) (s : state) :
  userName (credentials s) = [] \/ systemCode (credentials s) = [] ->
  login fetch tem (content (login_call NODE_ENV s))
  = ({| code := 400;
        payload := VObj [(js "success", VBool false);
                         (js "error",
                          VStr (js "Username and system code are required"))] |},
     {| requests := []; warnings := [] |}).
Proof.
  intro H. apply login_rejects; [discriminate|].
  unfold login_call. cbn [content]. rewrite !object_prop. cbn [lookup str_eqb].
  simpl. destruct H as [-> | ->]; [left|right]; reflexivity.
Qed.

Lemma empty_credentials_rejected_by_relay_witness :
  login Scenario.unreachable Scenario.v8_message
        (content (login_call None (initial 0)))
  = ({| code := 400;
        payload := VObj [(js "success", VBool false);
                         (js "error",
                          VStr (js "Username and system code are required"))] |},
     {| requests := []; warnings := [] |}).
Proof.
  apply empty_credentials_rejected_by_relay. left. reflexivity.
Defined.

(** X29.  A login goes through even when the station list cannot be
    loaded: with [success: true] and a token in the login answer, the user
    ends authenticated with that token, the plant list and the selection as
    they were, when the station list call does not reach the relay. *)
Theorem login_survives_station_failure (NODE_ENV : option jsstring)
  (http : http_request -> http_result) (nts : float -> jsstring)
  (stn : jsstring -> float) (tf : float -> jsstring) (s : state)
  (r : http_response) (data token : value) (m : jsstring) :
  http (login_call NODE_ENV s) = Answered r ->
  answer r = Server.Json data ->
  prop data (js "success") = Some (VBool true) ->
  prop data (js "xsrfToken") = Some token ->
  truthy token = true ->
  http (stations_call NODE_ENV token) = Unreachable m ->
  fst (run (handleLogin NODE_ENV http nts stn tf s) s)
  = {| isAuthenticated := true; xsrfToken := token;
       availablePlants := availablePlants s; selectedPlants := selectedPlants s;
       realTimeData := realTimeData s; loading := false;
       lastUpdate := lastUpdate s; loginError := VStr [];
       showPassword := showPassword s; credentials := credentials s |}.
Proof.
  intros Hh Ha Hs Hx Ht Hst. rewrite login_run, Hh.
  destruct r as [a hdr]. cbn [answer] in Ha. subst a.
  destruct data; try discriminate Hs; rewrite Hs, Hx;
    cbn [is_true]; unfold token_of; cbn [truthy_opt]; rewrite Ht;
    unfold listed; rewrite Hst; reflexivity.
Qed.

Lemma login_survives_station_failure_witness :
  fst (run (handleLogin None
              (fun rq => if Cors.includes (target rq) (js "/login")
                         then relayed login_granted
                         else Unreachable (js "Failed to fetch"))
              Scenario.unformatted Scenario.unread Scenario.unformatted signing_in)
           signing_in)
  = {| isAuthenticated := true; xsrfToken := VStr (js "x-abc123");
       availablePlants := []; selectedPlants := [];
       realTimeData := VArr []; loading := false;
       lastUpdate := 1700000000000%N; loginError := VStr [];
       showPassword := false;
       credentials := {| userName := js "installer"; systemCode := js "s3cret" |} |}.
Proof.
  apply (@login_survives_station_failure None
           (fun rq => if Cors.includes (target rq) (js "/login")
                      then relayed login_granted
                      else Unreachable (js "Failed to fetch"))
           Scenario.unformatted Scenario.unread Scenario.unformatted signing_in
           {| answer := Server.Json login_granted; answer_header := fun _ => None |}
           login_granted (VStr (js "x-abc123")) (js "Failed to fetch"));
    reflexivity.
Defined.
